(** * ChronoCalc: dates and times of a sun or moon position within a year

    A shallow embedding of [chronocalc.py] and the properties of its
    position search.  Python floats are IEEE 754 binary64 numbers and are
    modelled by Rocq's primitive floats; the external collaborators
    (pyephem, dateutil, arrow, prettytable) appear through their
    documented behaviour. *)

From Stdlib Require Import ZArith List Bool Lia String Floats Permutation Sorted.
From Stdlib Require Uint63.
Import ListNotations.
Local Open Scope Z_scope.

(** ** Python floats *)

Module PyFloat.

Local Open Scope float_scope.

(** A float that is not a NaN compares equal to itself. *)
Definition is_nan (x : float) : bool := negb (x =? x).

(** [ephem.degree]: the float nearest to pi / 180. *)
Definition degree : float := 0x1.1df46a2529d39p-6.

Definition SFnan (x : spec_float) : bool :=
  match x with S754_nan => true | _ => false end.

(** A spec float that is a zero or a finite number. *)
Definition SFfin (x : spec_float) : bool :=
  match x with S754_zero _ | S754_finite _ _ _ => true | _ => false end.

End PyFloat.

(** ** Naive datetimes ([datetime.datetime]) and [dateutil.rrule] *)

Module PyDatetime.

Definition MINYEAR : Z := 1.
Definition MAXYEAR : Z := 9999.

Definition is_leap (year : Z) : bool :=
  (year mod 4 =? 0) && (negb (year mod 100 =? 0) || (year mod 400 =? 0)).

Definition days_before_year (year : Z) : Z :=
  let y := year - 1 in y * 365 + y / 4 - y / 100 + y / 400.

Definition DAYS_IN_MONTH : list Z :=
  [-1; 31; 28; 31; 30; 31; 30; 31; 31; 30; 31; 30; 31].

Definition days_in_month (year month : Z) : Z :=
  if (month =? 2) && is_leap year then 29
  else nth (Z.to_nat month) DAYS_IN_MONTH 0.

Definition DAYS_BEFORE_MONTH : list Z :=
  [-1; 0; 31; 59; 90; 120; 151; 181; 212; 243; 273; 304; 334].

Definition days_before_month (year month : Z) : Z :=
  nth (Z.to_nat month) DAYS_BEFORE_MONTH 0
  + (if (2 <? month) && is_leap year then 1 else 0).

(** [_ymd2ord]: January 1 of year 1 is day 1. *)
Definition ymd2ord (year month day : Z) : Z :=
  days_before_year year + days_before_month year month + day.

(** A datetime object.  The calendar date is held as its proleptic
    Gregorian ordinal ([date.toordinal()]), which orders dates as the
    triple (year, month, day) does. *)
Record datetime : Type := mk_datetime {
  ordinal : Z;
  hour : Z;
  minute : Z;
  second : Z;
  microsecond : Z
}.

(** The class invariant of [datetime.datetime]: a date from 0001-01-01 to
    9999-12-31 and a time of day. *)
Definition time_ok (d : datetime) : bool :=
  (0 <=? hour d) && (hour d <? 24)
  && (0 <=? minute d) && (minute d <? 60)
  && (0 <=? second d) && (second d <? 60)
  && (0 <=? microsecond d) && (microsecond d <? 1000000).

Definition valid (d : datetime) : bool :=
  (1 <=? ordinal d) && (ordinal d <=? ymd2ord MAXYEAR 12 31) && time_ok d.

(** [datetime(year, month, day, hour, minute, second)];
    [None] stands for the [ValueError] of a field out of range. *)
Definition datetime_new (year month day hh mm ss : Z) : option datetime :=
  if (MINYEAR <=? year) && (year <=? MAXYEAR)
     && (1 <=? month) && (month <=? 12)
     && (1 <=? day) && (day <=? days_in_month year month)
     && (0 <=? hh) && (hh <=? 23) && (0 <=? mm) && (mm <=? 59)
     && (0 <=? ss) && (ss <=? 59)
  then Some (mk_datetime (ymd2ord year month day) hh mm ss 0)
  else None.

(** [d.replace(minute=.., second=.., microsecond=..)] *)
Definition replace_minute_second_microsecond (d : datetime) (mm ss us : Z) :=
  mk_datetime (ordinal d) (hour d) mm ss us.

Definition replace_microsecond (d : datetime) (us : Z) :=
  mk_datetime (ordinal d) (hour d) (minute d) (second d) us.

(** Comparison of datetimes: field by field, the most significant first. *)
Fixpoint lex_compare (a b : list Z) : comparison :=
  match a, b with
  | x :: a', y :: b' =>
      match x ?= y with Eq => lex_compare a' b' | c => c end
  | _, _ => Eq
  end.

Definition fields (d : datetime) : list Z :=
  [ordinal d; hour d; minute d; second d; microsecond d].

Definition dt_compare (a b : datetime) : comparison :=
  lex_compare (fields a) (fields b).

Definition dt_ltb (a b : datetime) : bool :=
  match dt_compare a b with Lt => true | _ => false end.

Definition dt_leb (a b : datetime) : bool :=
  match dt_compare a b with Gt => false | _ => true end.

(** Microseconds elapsed since the midnight that starts day 0. *)
Definition to_us (d : datetime) : Z :=
  (((ordinal d * 24 + hour d) * 60 + minute d) * 60 + second d) * 1000000
  + microsecond d.

Definition us_per_minute : Z := 60000000.

(** One advance of a MINUTELY rule: the minutes carry into the hours and
    the hours into the days. *)
Definition add_minutes (d : datetime) (k : Z) : datetime :=
  let m := minute d + k in
  let h := hour d + m / 60 in
  mk_datetime (ordinal d + h / 24) (h mod 24) (m mod 60)
              (second d) (microsecond d).

(** The instants of [rrule(MINUTELY, interval, dtstart, until)] from [cur] on:
    the rule yields while the instant is not after [until]. *)
Fixpoint rrule_iter (fuel : nat) (interval : Z) (cur until : datetime)
  : list datetime :=
  match fuel with
  | O => []
  | S fuel' =>
      if dt_ltb until cur then []
      else cur :: rrule_iter fuel' interval (add_minutes cur interval) until
  end.

(** [rrule.rrule(rrule.MINUTELY, interval=interval, dtstart=dtstart,
    until=until)], for [interval >= 1].  The rule drops the microseconds
    of [dtstart]; the whole minutes between the two ends, plus one, bound
    the number of instants. *)
Definition rrule_minutely (interval : Z) (dtstart until : datetime)
  : list datetime :=
  let dtstart := replace_microsecond dtstart 0 in
  rrule_iter (Z.to_nat ((to_us until - to_us dtstart) / us_per_minute + 1))
             interval dtstart until.

(** January 1, 00:00:00 and December 31, 23:59:00 of a year. *)
Definition jan1 (year : Z) : datetime := mk_datetime (ymd2ord year 1 1) 0 0 0 0.
Definition dec31 (year : Z) : datetime :=
  mk_datetime (ymd2ord year 12 31) 23 59 0 0.

(** The grid of [n] instants that starts at [start] and advances by
    [step] minutes: the instant of index [i] is [start] plus [i * step]
    minutes. *)
Definition grid (start : datetime) (step : Z) (n : nat) : list datetime :=
  map (fun i => add_minutes start (Z.of_nat i * step)) (seq 0 n).

(** The number of grid instants from [start] that are not after [until]. *)
Definition ticks (step : Z) (start until : datetime) : nat :=
  Z.to_nat ((to_us until - to_us start + step * us_per_minute)
            / (step * us_per_minute)).

End PyDatetime.

(** ** The program *)

Module Chronocalc.
Import PyFloat PyDatetime.

Local Open Scope float_scope.

(** [get_elevation] and [get_timezone] ask outside services.  The
    elevation they give is an argument of the two searches, and the time
    zone only shows in the local times of the table. *)

(** An [ephem.Observer] as [Body.compute] reads it: the coordinates given
    on the command line, the elevation, and the instant in [date]. *)
Record Observer : Type := mk_Observer {
  lon : string;
  lat : string;
  elevation : float;
  date : datetime
}.

(** The ephemeris library (pyephem).  A body is an object that
    [compute] updates for an observer; [alt], [az] (radians) and
    [moon_phase] read the updated object.  [next_solstice d] stands for
    [ephem.next_solstice(d).datetime()], which is a datetime object. *)
Class Ephem : Type := {
  Body : Type;
  Sun : Body;
  Moon : Body;
  compute : Body -> Observer -> Body;
  alt : Body -> float;
  az : Body -> float;
  moon_phase : Body -> float;
  next_solstice : datetime -> datetime;
  next_solstice_valid : forall d, valid d = true -> valid (next_solstice d) = true
}.

(** What the program shows: the built-in [round] and [str], and the
    conversion of an instant to the observer's local time
    ([arrow.get(t).to('UTC').to(tz.gettz(get_timezone(lon, lat)))]). *)
Class Console : Type := {
  LocalTime : Type;
  to_local : string -> string -> datetime -> LocalTime;
  round_ndigits : float -> Z -> float;
  str : float -> string
}.

Inductive exception : Type := ValueError | IndexError.

(** How a call ends: it returns, it raises, or it calls [sys.exit] with a
    message. *)
Inductive result (A : Type) : Type :=
| Ok (a : A)
| Raise (e : exception)
| Exit (msg : string).
Arguments Ok {A} a.
Arguments Raise {A} e.
Arguments Exit {A} msg.

Definition bind {A B : Type} (m : result A) (k : A -> result B) : result B :=
  match m with
  | Ok a => k a
  | Raise e => Raise e
  | Exit msg => Exit msg
  end.

Notation "x <- m ;; k" := (bind m (fun x => k))
  (at level 61, m at next level, right associativity).

Definition datetime_ (year month day hh mm ss : Z) : result datetime :=
  match datetime_new year month day hh mm ss with
  | Some d => Ok d
  | None => Raise ValueError
  end.

(** [l[0]] *)
Definition index0 {A : Type} (l : list A) : result A :=
  match l with
  | x :: _ => Ok x
  | [] => Raise IndexError
  end.

(** The exit status of the process, when the call is the last thing [main]
    does: an uncaught exception and [sys.exit] with a message both end the
    process with status 1. *)
Definition exit_status {A : Type} (r : result A) : Z :=
  match r with
  | Ok _ => 0%Z
  | Raise _ => 1%Z
  | Exit _ => 1%Z
  end.

(** [list.sort(key=key)]: a stable sort that compares keys with [<]. *)
Section Sort.
Variable A : Type.
Variable key : A -> float.

Fixpoint insert (x : A) (l : list A) : list A :=
  match l with
  | [] => [x]
  | y :: l' => if key y <? key x then y :: insert x l' else x :: y :: l'
  end.

Definition list_sort (l : list A) : list A := fold_right insert [] l.
End Sort.
Arguments insert {A} key x l.
Arguments list_sort {A} key l.

Section Program.
Context {E : Ephem} {C : Console}.

(** *** Moon *)

Record moon_row : Type := mk_moon_row {
  moon_when : LocalTime;
  moon_altitude : float;
  moon_azimuth : float;
  moon_illumination : string
}.

(** The variables the loop of [get_moon_position] updates. *)
Record moon_state : Type := mk_moon_state {
  moon_pos : Body;
  moon_tab : list moon_row;
  empty_table : bool
}.

Definition moon_body (lon lat : string) (elevation searchalt searchaz : float)
    (st : moon_state) (timewindow : datetime) : moon_state :=
  let location := mk_Observer lon lat elevation timewindow in
  let pos := compute (moon_pos st) location in
  if (abs (alt pos / degree - searchalt) <? 2)
     && (abs (az pos / degree - searchaz) <? 2)
  then mk_moon_state pos
         (moon_tab st ++
          [mk_moon_row (to_local lon lat timewindow)
             (round_ndigits (alt pos / degree) 2)
             (round_ndigits (az pos / degree) 2)
             (str (round_ndigits (moon_phase pos * 100) 1) ++ "%")])
         false
  else mk_moon_state pos (moon_tab st) (empty_table st).

Definition moon_loop (lon lat : string) (elevation searchalt searchaz : float)
    (startmoment endmoment : datetime) : moon_state :=
  fold_left (moon_body lon lat elevation searchalt searchaz)
            (rrule_minutely 15 startmoment endmoment)
            (mk_moon_state Moon [] true).

Inductive output : Type :=
| Line (s : string)
| MoonTable (rows : list moon_row)
| SunTable (rows : list (LocalTime * float * float)).

Definition no_solution : string :=
  "No possible solution found. Please check the given parameters.".

(** The line feed that opens and closes the two headers. *)
Definition LF : string := String (Ascii.ascii_of_nat 10) EmptyString.

Definition moon_header : string :=
  LF ++ "On the following dates and times the moon is closest to the given parameters:"
     ++ LF.

Definition sun_header : string :=
  LF ++ "On the following dates and times the sun is closest to the given parameters:"
     ++ LF.

Definition get_moon_position (year : Z) (lon lat : string)
    (elevation searchalt searchaz : float) : result (list output) :=
  startmoment <- datetime_ year 1 1 0 0 0 ;;
  endmoment <- datetime_ year 12 31 23 59 0 ;;
  let st := moon_loop lon lat elevation searchalt searchaz
                      startmoment endmoment in
  if empty_table st then Ok [Line no_solution]
  else Ok [Line moon_header; MoonTable (moon_tab st)].

(** *** Sun *)

(** An entry of [results]: (altitude, azimuth, timewindow, closeby). *)
Definition entry : Type := float * float * datetime * float.

Definition closeby (r : entry) : float := snd r.
Definition timewindow_of (r : entry) : datetime := snd (fst r).

(** The variables the loop of [calculate_sun] updates. *)
Record sun_state : Type := mk_sun_state {
  sun_pos : Body;
  sun_results : list entry
}.

Definition sun_body (lon lat : string) (elevation searchalt searchaz : float)
    (st : sun_state) (timewindow : datetime) : sun_state :=
  let location := mk_Observer lon lat elevation timewindow in
  let pos := compute (sun_pos st) location in
  if (abs (alt pos / degree - searchalt) <? 3)
     && (abs (az pos / degree - searchaz) <? 3)
  then
    let closeby := abs (alt pos / degree - searchalt)
                   * abs (az pos / degree - searchaz) in
    mk_sun_state pos
      (sun_results st ++
       [(round_ndigits (alt pos / degree) 2,
         round_ndigits (az pos / degree) 2, timewindow, closeby)])
  else mk_sun_state pos (sun_results st).

Definition sun_loop (results : list entry) (lon lat : string)
    (elevation searchalt searchaz : float) (calc_start calc_end : datetime)
    (accuracy : Z) : sun_state :=
  fold_left (sun_body lon lat elevation searchalt searchaz)
            (rrule_minutely accuracy calc_start calc_end)
            (mk_sun_state Sun results).

Definition calculate_sun (results : list entry) (lon lat : string)
    (elevation searchalt searchaz : float) (calc_start calc_end : datetime)
    (accuracy : Z) : list entry :=
  list_sort closeby
    (sun_results (sun_loop results lon lat elevation searchalt searchaz
                           calc_start calc_end accuracy)).

(** The three instants [get_sun_position] computes first:
    (date_solstice, date_start, date_end). *)
Definition split_year (year : Z) : result (datetime * datetime * datetime) :=
  jan1 <- datetime_ year 1 1 0 0 0 ;;
  let date_solstice := next_solstice jan1 in
  let date_solstice :=
    replace_minute_second_microsecond date_solstice 0 0 0 in
  date_start <- datetime_ year 1 1 0 0 0 ;;
  date_end <- datetime_ year 12 31 23 59 0 ;;
  Ok (date_solstice, date_start, date_end).

Definition sun_row (lon lat : string) (r : entry) : LocalTime * float * float :=
  (to_local lon lat (timewindow_of r), fst (fst (fst r)), snd (fst (fst r))).

Definition get_sun_position (year : Z) (lon lat : string)
    (elevation searchalt searchaz : float) (accuracy : Z)
  : result (list output) :=
  w <- split_year year ;;
  let '(date_solstice, date_start, date_end) := w in
  let results1 := calculate_sun [] lon lat elevation searchalt searchaz
                                date_start date_solstice accuracy in
  let results2 := calculate_sun [] lon lat elevation searchalt searchaz
                                date_solstice date_end accuracy in
  if (Z.of_nat (List.length results1) <? 2)%Z then Exit no_solution
  else
    r1 <- index0 results1 ;;
    r2 <- index0 results2 ;;
    Ok [Line sun_header; SunTable [sun_row lon lat r1; sun_row lon lat r2]].

(** *** The command line

    The arguments [main] parses; [--accurate] stores 2 in [accuracy], which
    is 15 otherwise.  The elevation is what [get_elevation] returned. *)
Record Args : Type := mk_Args {
  arg_year : Z;
  arg_lat : string;
  arg_lon : string;
  arg_alt : float;
  arg_az : float;
  arg_moon : bool;
  arg_accuracy : Z
}.

Definition main (args : Args) (elevation : float) : result (list output) :=
  if arg_moon args
  then get_moon_position (arg_year args) (arg_lon args) (arg_lat args)
                         elevation (arg_alt args) (arg_az args)
  else get_sun_position (arg_year args) (arg_lon args) (arg_lat args)
                        elevation (arg_alt args) (arg_az args)
                        (arg_accuracy args).

(** *** The words of the specification

    The Sampler, the Matcher and the closeness score as the specification
    names them; the facts below relate them to the loops above. *)

(** A Sample: an instant and the body as computed for it. *)
Definition sample : Type := (datetime * Body)%type.

Definition instant (s : sample) : datetime := fst s.
Definition altitude (s : sample) : float := alt (snd s) / degree.
Definition azimuth (s : sample) : float := az (snd s) / degree.

(** The Sampler: one Sample per instant, each from one call of the
    ephemeris on the body the previous call left. *)
Fixpoint samples (pos : Body) (lon lat : string) (elevation : float)
    (ts : list datetime) : list sample :=
  match ts with
  | [] => []
  | t :: ts' =>
      let pos' := compute pos (mk_Observer lon lat elevation t) in
      (t, pos') :: samples pos' lon lat elevation ts'
  end.

(** The Matcher's test: both deviations strictly below the tolerance. *)
Definition accepts (tol searchalt searchaz : float) (s : sample) : bool :=
  (abs (altitude s - searchalt) <? tol) && (abs (azimuth s - searchaz) <? tol).

(** The closeness score of a Sample. *)
Definition score (searchalt searchaz : float) (s : sample) : float :=
  abs (altitude s - searchalt) * abs (azimuth s - searchaz).

Definition sun_entry (searchalt searchaz : float) (s : sample) : entry :=
  (round_ndigits (altitude s) 2, round_ndigits (azimuth s) 2, instant s,
   score searchalt searchaz s).

Definition moon_row_of (lon lat : string) (s : sample) : moon_row :=
  mk_moon_row (to_local lon lat (instant s))
    (round_ndigits (altitude s) 2) (round_ndigits (azimuth s) 2)
    (str (round_ndigits (moon_phase (snd s) * 100) 1) ++ "%").

(** The Samples of a window that pass the test, in the Sampler's order. *)
Definition accepted (tol : float) (pos : Body) (lon lat : string)
    (elevation searchalt searchaz : float) (calc_start calc_end : datetime)
    (step : Z) : list sample :=
  filter (accepts tol searchalt searchaz)
    (samples pos lon lat elevation (rrule_minutely step calc_start calc_end)).

(** The Sample [s] is the representative of the accepted Samples [acc]:
    it is one of them, none has a lower score, and none with an equal
    score is earlier. *)
Definition is_best (searchalt searchaz : float) (acc : list sample)
    (s : sample) : Prop :=
  In s acc
  /\ (forall s', In s' acc ->
        (score searchalt searchaz s <=? score searchalt searchaz s') = true)
  /\ (forall s', In s' acc ->
        (score searchalt searchaz s' =? score searchalt searchaz s) = true ->
        dt_leb (instant s) (instant s') = true).

End Program.
End Chronocalc.

(** ** An ephemeris that records its calls

    [spy E] answers as [E] does and keeps, beside the body, the observers
    [compute] was called with, the first call first. *)

Module Spy.
Import PyDatetime Chronocalc.

Definition spy (E : Ephem) : Ephem := {|
  Body := (@Body E * list Observer)%type;
  Sun := (@Sun E, []);
  Moon := (@Moon E, []);
  compute := fun b o => (@compute E (fst b) o, snd b ++ [o]);
  alt := fun b => @alt E (fst b);
  az := fun b => @az E (fst b);
  moon_phase := fun b => @moon_phase E (fst b);
  next_solstice := @next_solstice E;
  next_solstice_valid := @next_solstice_valid E
|}.

(** The calls a body of [spy E] has seen. *)
Definition calls {E : Ephem} (b : @Body (spy E)) : list Observer := snd b.

End Spy.

(** ** A test double of the collaborators

    An ephemeris for the year 2024 whose sun is closest to altitude 10 at
    the hour of the June solstice and moves away by a hundredth of a
    degree per minute; its azimuth is 100 before that instant, 102 at it
    and 104 after it. *)

Module Double.
Import PyFloat PyDatetime Chronocalc.

Definition solstice_2024 : datetime := mk_datetime 739057 20 50 33 123456.

Definition solstice_hour : datetime := mk_datetime 739057 20 0 0 0.

Definition float_of_Z (z : Z) : float := of_uint63 (Uint63.of_Z z).

Definition minutes_from_solstice (t : datetime) : Z :=
  Z.abs (to_us t - to_us solstice_hour) / us_per_minute.

Definition double_alt (t : datetime) : float :=
  ((10 + float_of_Z (minutes_from_solstice t) / 100) * degree)%float.

Definition double_az (t : datetime) : float :=
  match (to_us t ?= to_us solstice_hour)%Z with
  | Lt => (100 * degree)%float
  | Eq => (102 * degree)%float
  | Gt => (104 * degree)%float
  end.

Definition double_next_solstice (d : datetime) : datetime :=
  if valid d then solstice_2024 else d.

Lemma double_next_solstice_valid d :
  valid d = true -> valid (double_next_solstice d) = true.
Proof. intros H. unfold double_next_solstice. rewrite H. reflexivity. Qed.

(** The body is the pair of its altitude and azimuth. *)
#[export] Instance ephem : Ephem := {|
  Body := float * float;
  Sun := (0%float, 0%float);
  Moon := (0%float, 0%float);
  compute := fun _ o => (double_alt (date o), double_az (date o));
  alt := fst;
  az := snd;
  moon_phase := fun _ => 0.5%float;
  next_solstice := double_next_solstice;
  next_solstice_valid := double_next_solstice_valid
|}.

#[export] Instance console : Console := {|
  LocalTime := datetime;
  to_local := fun _ _ t => t;
  round_ndigits := fun x _ => x;
  str := fun _ => EmptyString
|}.

(** What the double reads for an observer. *)
Definition reading (o : Observer) : float * float * float :=
  (double_alt (date o), double_az (date o), 0.5%float).

(** A second double: a body that stays at altitude 0 and azimuth 1. *)
Definition still : Ephem := {|
  Body := unit;
  Sun := tt;
  Moon := tt;
  compute := fun _ _ => tt;
  alt := fun _ => 0%float;
  az := fun _ => degree;
  moon_phase := fun _ => 0.5%float;
  next_solstice := double_next_solstice;
  next_solstice_valid := double_next_solstice_valid
|}.

(** The table of the search on the second double for altitude 0 and
    azimuth 1 in 2024, with a step of 30 days. *)
Definition report : list output :=
  [Line sun_header;
   SunTable [(mk_datetime 738886 0 0 0 0, 0%float, 1%float);
             (solstice_hour, 0%float, 1%float)]].

End Double.

(** ** The elevation lookup

    [get_elevation] asks the service at api.open-elevation.com and reads
    the answer as JSON.  The service is a function from the address
    requested to the value [response.json()] returns; a request that fails
    or an answer that is not JSON is outside this model. *)

Module Elevation.

(** What [json] makes of a document: [None], a bool, an int, a float, a
    str, a list, or a dict whose keys are strings. *)
#[local] Unset Elimination Schemes.
Inductive json : Type :=
| JNull
| JBool (b : bool)
| JInt (n : Z)
| JFloat (x : float)
| JString (s : string)
| JArray (items : list json)
| JObject (fields : list (string * json)).

#[local] Set Elimination Schemes.

Inductive error : Type := KeyError | IndexError | TypeError.

(** [d[key]] on the items of a dict. *)
Fixpoint lookup (key : string) (fields : list (string * json))
  : option json :=
  match fields with
  | [] => None
  | (k, v) :: fields' => if String.eqb k key then Some v else lookup key fields'
  end.

(** [v[key]] for a string [key]: a dict is searched; a list and a str
    take integers only; nothing else can be subscripted. *)
Definition getitem (v : json) (key : string) : json + error :=
  match v with
  | JObject fields =>
      match lookup key fields with
      | Some x => inl x
      | None => inr KeyError
      end
  | _ => inr TypeError
  end.

(** [v[0]]: the first item of a list, the first character of a str; a dict
    read from JSON has no key 0. *)
Definition getitem0 (v : json) : json + error :=
  match v with
  | JArray (x :: _) => inl x
  | JArray [] => inr IndexError
  | JString (String c _) => inl (JString (String c EmptyString))
  | JString EmptyString => inr IndexError
  | JObject _ => inr KeyError
  | _ => inr TypeError
  end.

Definition url (lon lat : string) : string :=
  "https://api.open-elevation.com/api/v1/lookup?locations=" ++ lat ++ ","
  ++ lon.

Definition get_elevation (requests_get : string -> json) (lon lat : string)
  : json + error :=
  let constructurl := url lon lat in
  let elevation := requests_get constructurl in
  match getitem elevation "results" with
  | inr e => inr e
  | inl results =>
      match getitem0 results with
      | inr e => inr e
      | inl first => getitem first "elevation"
      end
  end.

End Elevation.

(** * Facts about the model *)

(** ** The order of binary64 floats *)

Module PyFloatFacts.
Import PyFloat.

Local Open Scope float_scope.

Ltac cmp_cases :=
  repeat match goal with
  | |- context [Z.compare ?a ?b] => destruct (Z.compare_spec a b)
  | H : context [Z.compare ?a ?b] |- _ => destruct (Z.compare_spec a b)
  | |- context [Pos.compare_cont Eq ?a ?b] =>
      change (Pos.compare_cont Eq a b) with (Pos.compare a b);
      destruct (Pos.compare_spec a b)
  | H : context [Pos.compare_cont Eq ?a ?b] |- _ =>
      change (Pos.compare_cont Eq a b) with (Pos.compare a b) in H;
      destruct (Pos.compare_spec a b)
  end.

Lemma SFltb_trans x y z :
  SFltb x y = true -> SFltb y z = true -> SFltb x z = true.
Proof.
  unfold SFltb.
  destruct x as [[]|[]| |[] mx ex], y as [[]|[]| |[] my ey],
           z as [[]|[]| |[] mz ez]; simpl; try congruence;
    intros; cmp_cases; simpl in *; subst; try congruence; try lia.
Qed.

Lemma SFltb_negtrans x y z :
  SFnan y = false ->
  SFltb x y = false -> SFltb y z = false -> SFltb x z = false.
Proof.
  unfold SFltb.
  destruct x as [[]|[]| |[] mx ex], y as [[]|[]| |[] my ey],
           z as [[]|[]| |[] mz ez]; simpl; try congruence;
    intros; cmp_cases; simpl in *; subst; try congruence; try lia.
Qed.

Lemma SFltb_leb x y :
  SFnan x = false -> SFnan y = false ->
  SFltb x y = false -> SFleb y x = true.
Proof.
  unfold SFltb, SFleb.
  destruct x as [[]|[]| |[] mx ex], y as [[]|[]| |[] my ey];
    simpl; try congruence;
    intros; cmp_cases; simpl in *; subst; try congruence; try lia.
Qed.

Lemma SFltb_eqb x y : SFltb x y = true -> SFeqb y x = false.
Proof.
  unfold SFltb, SFeqb.
  destruct x as [[]|[]| |[] mx ex], y as [[]|[]| |[] my ey];
    simpl; try congruence;
    intros; cmp_cases; simpl in *; subst; try congruence; try lia.
Qed.

Lemma SFeqb_ltb x y : SFeqb x y = true -> SFltb x y = false.
Proof.
  unfold SFeqb, SFltb. destruct (SFcompare x y) as [[]|]; congruence.
Qed.

Lemma SFltb_irrefl x : SFltb x x = false.
Proof.
  unfold SFltb.
  destruct x as [[]|[]| |[] mx ex]; simpl; try congruence;
    rewrite Z.compare_refl; change (Pos.compare_cont Eq mx mx) with (Pos.compare mx mx);
    rewrite Pos.compare_refl; reflexivity.
Qed.

(** Rounding a non-negative mantissa never produces a NaN. *)

Section Rounding.
Local Open Scope Z_scope.
Variables prec emax : Z.

Lemma shr_1_nonneg mrs : 0 <= shr_m mrs -> 0 <= shr_m (shr_1 mrs).
Proof.
  destruct mrs as [m r s]; simpl.
  destruct m as [|[p|p|]|p]; simpl; lia.
Qed.

Lemma iter_pos_shr_1_nonneg p :
  forall mrs, 0 <= shr_m mrs -> 0 <= shr_m (iter_pos shr_1 p mrs).
Proof.
  induction p as [p IH|p IH|]; simpl; intros mrs H.
  - apply IH, IH, shr_1_nonneg, H.
  - apply IH, IH, H.
  - apply shr_1_nonneg, H.
Qed.

Lemma shr_fexp_nonneg m e l :
  0 <= m -> 0 <= shr_m (fst (shr_fexp prec emax m e l)).
Proof.
  intros H. unfold shr_fexp, shr.
  assert (H0 : 0 <= shr_m (shr_record_of_loc m l))
    by (destruct l as [|[]]; exact H).
  destruct (fexp prec emax (Zdigits2 m + e) - e); simpl; auto.
  apply iter_pos_shr_1_nonneg, H0.
Qed.

Lemma round_nearest_even_nonneg m l :
  0 <= m -> 0 <= round_nearest_even m l.
Proof.
  intros H. destruct l as [|[]]; simpl; try lia.
  destruct (Z.even m); lia.
Qed.

Lemma binary_round_aux_not_nan sx mx ex lx :
  0 <= mx -> SFnan (binary_round_aux prec emax sx mx ex lx) = false.
Proof.
  intros H. unfold binary_round_aux.
  pose proof (shr_fexp_nonneg mx ex lx H) as H1.
  destruct (shr_fexp prec emax mx ex lx) as [mrs' e']; simpl in H1.
  pose proof (@shr_fexp_nonneg
                (round_nearest_even (shr_m mrs') (loc_of_shr_record mrs'))
                e' loc_Exact (round_nearest_even_nonneg _ _ H1)) as H2.
  destruct (shr_fexp prec emax _ e' loc_Exact) as [mrs'' e'']; simpl in H2.
  destruct (shr_m mrs'') as [|m|m]; try reflexivity.
  - destruct (e'' <=? emax - prec)%Z; reflexivity.
  - lia.
Qed.
End Rounding.

Lemma SFmul_fin_not_nan prec emax x y :
  SFfin x = true -> SFfin y = true -> SFnan (SFmul prec emax x y) = false.
Proof.
  destruct x as [sx|sx| |sx mx ex], y as [sy|sy| |sy my ey];
    simpl; try congruence; intros _ _.
  apply binary_round_aux_not_nan. apply Pos2Z.is_nonneg.
Qed.

Lemma SFabs_ltb_fin x c : SFltb (SFabs x) c = true -> SFfin (SFabs x) = true.
Proof.
  unfold SFltb.
  destruct x as [sx|sx| |sx mx ex]; simpl; try reflexivity;
    destruct c as [sc|[]| |[] mc ec]; simpl; congruence.
Qed.

(** The facts above, on primitive floats. *)

Lemma is_nan_spec x : is_nan x = SFnan (Prim2SF x).
Proof.
  unfold is_nan. rewrite eqb_spec. unfold SFeqb.
  destruct (Prim2SF x) as [[]|[]| |[] mx ex]; simpl; try reflexivity;
    rewrite Z.compare_refl;
    change (Pos.compare_cont Eq mx mx) with (Pos.compare mx mx);
    rewrite Pos.compare_refl; reflexivity.
Qed.

Lemma ltb_trans x y z : (x <? y) = true -> (y <? z) = true -> (x <? z) = true.
Proof. rewrite !ltb_spec. apply SFltb_trans. Qed.

Lemma ltb_negtrans x y z :
  is_nan y = false -> (x <? y) = false -> (y <? z) = false -> (x <? z) = false.
Proof. rewrite is_nan_spec, !ltb_spec. apply SFltb_negtrans. Qed.

Lemma ltb_eqb x y : (x <? y) = true -> (y =? x) = false.
Proof. rewrite ltb_spec, eqb_spec. apply SFltb_eqb. Qed.

Lemma eqb_nltb x y : (x =? y) = true -> (x <? y) = false.
Proof. rewrite ltb_spec, eqb_spec. apply SFeqb_ltb. Qed.

Lemma ltb_irrefl x : (x <? x) = false.
Proof. rewrite ltb_spec. apply SFltb_irrefl. Qed.

Lemma nltb_leb x y :
  is_nan x = false -> is_nan y = false -> (x <? y) = false -> (y <=? x) = true.
Proof. rewrite !is_nan_spec, ltb_spec, leb_spec. apply SFltb_leb. Qed.

(** The product of two deviations that passed a tolerance test is a number. *)
Lemma mul_abs_not_nan a b c d :
  (abs a <? c) = true -> (abs b <? d) = true -> is_nan (abs a * abs b) = false.
Proof.
  rewrite is_nan_spec, mul_spec, !ltb_spec, !abs_spec. intros Ha Hb.
  apply SFmul_fin_not_nan; eapply SFabs_ltb_fin; eassumption.
Qed.

End PyFloatFacts.

(** ** Datetimes and the MINUTELY rule *)

Module PyDatetimeFacts.
Import PyDatetime.

Lemma time_ok_spec d :
  time_ok d = true <->
  0 <= hour d < 24 /\ 0 <= minute d < 60 /\ 0 <= second d < 60
  /\ 0 <= microsecond d < 1000000.
Proof. unfold time_ok. rewrite !andb_true_iff. lia. Qed.

Lemma valid_time_ok d : valid d = true -> time_ok d = true.
Proof. unfold valid. rewrite !andb_true_iff. tauto. Qed.

(** Field-wise comparison is the comparison of the instants. *)
Lemma dt_compare_to_us a b :
  time_ok a = true -> time_ok b = true ->
  dt_compare a b = (to_us a ?= to_us b).
Proof.
  rewrite !time_ok_spec. intros Ha Hb.
  unfold dt_compare, fields, to_us; simpl.
  repeat match goal with
  | |- context [match ?x ?= ?y with _ => _ end] =>
      destruct (Z.compare_spec x y)
  end; symmetry;
  first [apply Z.compare_eq_iff | apply Z.compare_lt_iff
        | apply Z.compare_gt_iff]; lia.
Qed.

Lemma dt_ltb_to_us a b :
  time_ok a = true -> time_ok b = true ->
  dt_ltb a b = (to_us a <? to_us b).
Proof.
  intros Ha Hb. unfold dt_ltb, Z.ltb.
  rewrite (dt_compare_to_us a b Ha Hb). reflexivity.
Qed.

Lemma dt_leb_to_us a b :
  time_ok a = true -> time_ok b = true ->
  dt_leb a b = (to_us a <=? to_us b).
Proof.
  intros Ha Hb. unfold dt_leb, Z.leb.
  rewrite (dt_compare_to_us a b Ha Hb). reflexivity.
Qed.

Lemma to_us_inj a b :
  time_ok a = true -> time_ok b = true -> to_us a = to_us b -> a = b.
Proof.
  rewrite !time_ok_spec. destruct a, b; unfold to_us; simpl.
  intros Ha Hb H.
  assert (microsecond0 = microsecond1 /\ second0 = second1
          /\ minute0 = minute1 /\ hour0 = hour1 /\ ordinal0 = ordinal1)
    as (-> & -> & -> & -> & ->) by lia.
  reflexivity.
Qed.

Lemma to_us_add_minutes d k :
  to_us (add_minutes d k) = to_us d + k * us_per_minute.
Proof.
  unfold add_minutes, to_us, us_per_minute; simpl.
  pose proof (Z.div_mod (minute d + k) 60 ltac:(lia)).
  pose proof (Z.div_mod (hour d + (minute d + k) / 60) 24 ltac:(lia)).
  lia.
Qed.

Lemma add_minutes_time_ok d k :
  time_ok d = true -> time_ok (add_minutes d k) = true.
Proof.
  rewrite !time_ok_spec. unfold add_minutes; simpl. intros H.
  pose proof (Z.mod_pos_bound (minute d + k) 60 ltac:(lia)).
  pose proof (Z.mod_pos_bound (hour d + (minute d + k) / 60) 24 ltac:(lia)).
  lia.
Qed.

Lemma add_minutes_0 d : time_ok d = true -> add_minutes d 0 = d.
Proof.
  intros H. apply to_us_inj; auto using add_minutes_time_ok.
  rewrite to_us_add_minutes. lia.
Qed.

Lemma add_minutes_add d a b :
  time_ok d = true ->
  add_minutes (add_minutes d a) b = add_minutes d (a + b).
Proof.
  intros H. apply to_us_inj; auto using add_minutes_time_ok.
  rewrite !to_us_add_minutes. lia.
Qed.

Lemma grid_S start step n :
  time_ok start = true ->
  grid start step (S n) = start :: grid (add_minutes start step) step n.
Proof.
  intros H. unfold grid. cbn [seq map].
  rewrite <- seq_shift, map_map.
  change (Z.of_nat 0 * step) with 0. rewrite add_minutes_0 by assumption.
  f_equal. apply map_ext. intros i. rewrite add_minutes_add by assumption.
  f_equal. lia.
Qed.

Lemma ticks_after step start until :
  0 < step -> to_us until < to_us start -> ticks step start until = O.
Proof.
  intros Hs H. unfold ticks, us_per_minute.
  assert ((to_us until - to_us start + step * 60000000)
          / (step * 60000000) <= 0); [|lia].
  apply Z.lt_succ_r, Z.div_lt_upper_bound; lia.
Qed.

Lemma ticks_step step start until :
  0 < step -> to_us start <= to_us until ->
  ticks step start until = S (ticks step (add_minutes start step) until).
Proof.
  intros Hs H. unfold ticks. rewrite to_us_add_minutes.
  unfold us_per_minute.
  replace (to_us until - to_us start + step * 60000000)
    with (to_us until - (to_us start + step * 60000000) + step * 60000000
          + 1 * (step * 60000000)) by lia.
  rewrite Z.div_add by lia.
  rewrite Z2Nat.inj_add; try lia.
  apply Z.div_pos; lia.
Qed.

(** With enough fuel the rule yields the grid instants up to [until]. *)
Lemma rrule_iter_grid step until :
  0 < step -> time_ok until = true ->
  forall fuel cur,
    time_ok cur = true ->
    (ticks step cur until <= fuel)%nat ->
    rrule_iter fuel step cur until = grid cur step (ticks step cur until).
Proof.
  intros Hs Hu. induction fuel as [|fuel IH]; intros cur Hc Hf.
  - replace (ticks step cur until) with O by lia. reflexivity.
  - simpl. rewrite (dt_ltb_to_us until cur Hu Hc).
    destruct (Z.ltb_spec (to_us until) (to_us cur)) as [Hlt|Hle].
    + rewrite ticks_after by assumption. reflexivity.
    + rewrite (ticks_step step cur until Hs Hle) in Hf |- *.
      rewrite grid_S by assumption. f_equal.
      apply IH; [apply add_minutes_time_ok; assumption | lia].
Qed.

Lemma replace_microsecond_id d :
  microsecond d = 0 -> replace_microsecond d 0 = d.
Proof. destruct d; unfold replace_microsecond; simpl; intros ->; reflexivity. Qed.

Lemma ticks_count step start until :
  0 < step -> to_us start <= to_us until ->
  ticks step start until =
  Z.to_nat ((to_us until - to_us start) / (step * us_per_minute) + 1).
Proof.
  intros Hs H. unfold ticks, us_per_minute.
  replace (to_us until - to_us start + step * 60000000)
    with (to_us until - to_us start + 1 * (step * 60000000)) by lia.
  rewrite Z.div_add by lia. reflexivity.
Qed.

(** The fuel of [rrule_minutely] is enough. *)
Lemma rrule_minutely_grid step start until :
  0 < step -> time_ok start = true -> microsecond start = 0 ->
  time_ok until = true ->
  rrule_minutely step start until = grid start step (ticks step start until).
Proof.
  intros Hs Hst Hus Hu. unfold rrule_minutely.
  rewrite replace_microsecond_id by assumption.
  apply rrule_iter_grid; try assumption.
  destruct (Z.lt_ge_cases (to_us until) (to_us start)) as [Hlt|Hle].
  - rewrite ticks_after by assumption. lia.
  - rewrite ticks_count by assumption.
    apply Z2Nat.inj_le.
    + assert (0 <= (to_us until - to_us start) / (step * us_per_minute));
        [apply Z.div_pos; unfold us_per_minute; lia | lia].
    + assert (0 <= (to_us until - to_us start) / us_per_minute);
        [apply Z.div_pos; unfold us_per_minute; lia | lia].
    + apply Z.add_le_mono_r, Z.div_le_compat_l; unfold us_per_minute; lia.
Qed.

Lemma grid_length start step n : List.length (grid start step n) = n.
Proof. unfold grid. rewrite length_map, length_seq. reflexivity. Qed.

Lemma grid_nth start step n i d :
  (i < n)%nat ->
  nth i (grid start step n) d = add_minutes start (Z.of_nat i * step).
Proof.
  intros H. unfold grid.
  rewrite (nth_indep _ d (add_minutes start (Z.of_nat 0 * step)))
    by (rewrite length_map, length_seq; exact H).
  rewrite (map_nth (fun i => add_minutes start (Z.of_nat i * step))).
  rewrite seq_nth by assumption. reflexivity.
Qed.

Lemma grid_time_ok start step n t :
  time_ok start = true -> In t (grid start step n) -> time_ok t = true.
Proof.
  intros H Hin. unfold grid in Hin. apply in_map_iff in Hin.
  destruct Hin as (i & <- & _). apply add_minutes_time_ok, H.
Qed.

(** The instants of a grid with a positive step grow strictly. *)
Lemma grid_increasing start step n i j d :
  0 < step -> time_ok start = true -> (i < j < n)%nat ->
  dt_ltb (nth i (grid start step n) d) (nth j (grid start step n) d) = true.
Proof.
  intros Hs H Hij. rewrite !grid_nth by lia.
  rewrite dt_ltb_to_us by (apply add_minutes_time_ok; assumption).
  rewrite !to_us_add_minutes. apply Z.ltb_lt. unfold us_per_minute. nia.
Qed.

(** Every grid instant of index below [ticks] is not after [until], and
    the next one is. *)
Lemma ticks_spec step start until i :
  0 < step -> to_us start <= to_us until ->
  (i < ticks step start until)%nat <->
  to_us (add_minutes start (Z.of_nat i * step)) <= to_us until.
Proof.
  intros Hs H. rewrite ticks_count, to_us_add_minutes by assumption.
  unfold us_per_minute.
  set (D := to_us until - to_us start).
  assert (HD : 0 <= D) by (unfold D; lia).
  pose proof (Z.div_pos D (step * 60000000) HD ltac:(lia)) as Hq.
  pose proof (Z.div_mod D (step * 60000000) ltac:(lia)) as Hdm.
  pose proof (Z.mod_pos_bound D (step * 60000000) ltac:(lia)) as Hm.
  split; intros Hi.
  - assert (Z.of_nat i <= D / (step * 60000000)) by lia.
    assert (Z.of_nat i * (step * 60000000)
            <= (step * 60000000) * (D / (step * 60000000))) by nia.
    unfold D in *. lia.
  - assert (Z.of_nat i * (step * 60000000) <= D) by (unfold D; lia).
    assert (Z.of_nat i < D / (step * 60000000) + 1); [|lia].
    apply Z.lt_succ_r. apply Z.div_le_lower_bound; lia.
Qed.

Lemma grid_snoc start step n :
  grid start step (S n) =
  grid start step n ++ [add_minutes start (Z.of_nat n * step)].
Proof. unfold grid. rewrite seq_S, map_app. reflexivity. Qed.

Lemma grid_last start step n d :
  last (grid start step (S n)) d = add_minutes start (Z.of_nat n * step).
Proof. rewrite grid_snoc. apply last_last. Qed.

(** The calendar: the dates the program builds. *)

Lemma days_before_year_succ year :
  days_before_year (year + 1) =
  days_before_year year + 365 + (if is_leap year then 1 else 0).
Proof.
  unfold days_before_year, is_leap. cbv zeta.
  replace (year + 1 - 1) with year by lia.
  destruct (Z.eqb_spec (year mod 4) 0), (Z.eqb_spec (year mod 100) 0),
    (Z.eqb_spec (year mod 400) 0); cbn [negb andb orb];
    Z.div_mod_to_equations; lia.
Qed.

Lemma days_before_year_mono y1 y2 :
  y1 <= y2 -> days_before_year y1 <= days_before_year y2.
Proof.
  unfold days_before_year. cbv zeta. intros H.
  Z.div_mod_to_equations. lia.
Qed.

Lemma jan1_new year :
  MINYEAR <= year <= MAXYEAR ->
  datetime_new year 1 1 0 0 0 = Some (mk_datetime (ymd2ord year 1 1) 0 0 0 0).
Proof.
  unfold datetime_new, MINYEAR, MAXYEAR. intros H.
  destruct (Z.leb_spec 1 year), (Z.leb_spec year 9999); try lia.
  reflexivity.
Qed.

Lemma dec31_new year :
  MINYEAR <= year <= MAXYEAR ->
  datetime_new year 12 31 23 59 0 =
  Some (mk_datetime (ymd2ord year 12 31) 23 59 0 0).
Proof.
  unfold datetime_new, MINYEAR, MAXYEAR. intros H.
  destruct (Z.leb_spec 1 year), (Z.leb_spec year 9999); try lia.
  reflexivity.
Qed.

Lemma datetime_new_year year month day hh mm ss d :
  datetime_new year month day hh mm ss = Some d ->
  MINYEAR <= year <= MAXYEAR.
Proof.
  unfold datetime_new.
  destruct (Z.leb_spec MINYEAR year), (Z.leb_spec year MAXYEAR);
    cbn [andb]; try discriminate.
  lia.
Qed.

(** January 1 is the first day of its year and December 31 the last. *)
Lemma ymd2ord_jan1 year : ymd2ord year 1 1 = days_before_year year + 1.
Proof. unfold ymd2ord, days_before_month. simpl. lia. Qed.

Lemma ymd2ord_dec31 year : ymd2ord year 12 31 + 1 = ymd2ord (year + 1) 1 1.
Proof.
  rewrite ymd2ord_jan1, days_before_year_succ.
  unfold ymd2ord, days_before_month. simpl.
  destruct (is_leap year); lia.
Qed.

Lemma jan1_valid year :
  MINYEAR <= year <= MAXYEAR ->
  valid (mk_datetime (ymd2ord year 1 1) 0 0 0 0) = true.
Proof.
  unfold MINYEAR, MAXYEAR. intros H. unfold valid, time_ok. simpl.
  rewrite !andb_true_r. apply andb_true_iff. split; apply Z.leb_le.
  - rewrite ymd2ord_jan1.
    pose proof (days_before_year_mono 1 year ltac:(lia)) as H1.
    change (days_before_year 1) with 0 in H1. lia.
  - rewrite ymd2ord_jan1.
    pose proof (days_before_year_mono year 9999 ltac:(lia)) as H1.
    change (ymd2ord MAXYEAR 12 31) with 3652059.
    change (days_before_year 9999) with 3651694 in H1. lia.
Qed.

Lemma dec31_valid year :
  MINYEAR <= year <= MAXYEAR ->
  valid (mk_datetime (ymd2ord year 12 31) 23 59 0 0) = true.
Proof.
  unfold MINYEAR, MAXYEAR. intros H. unfold valid, time_ok. simpl.
  rewrite !andb_true_r. apply andb_true_iff.
  pose proof (ymd2ord_dec31 year) as H31. rewrite ymd2ord_jan1 in H31.
  split; apply Z.leb_le.
  - pose proof (days_before_year_mono 2 (year + 1) ltac:(lia)) as H1.
    change (days_before_year 2) with 365 in H1. lia.
  - pose proof (days_before_year_mono (year + 1) 10000 ltac:(lia)) as H1.
    change (ymd2ord MAXYEAR 12 31) with 3652059.
    change (days_before_year 10000) with 3652059 in H1. lia.
Qed.

End PyDatetimeFacts.

(** ** The stable sort *)

Module SortFacts.
Import PyFloat PyFloatFacts Chronocalc.

Local Open Scope float_scope.

Section Sort.
Variable A : Type.
Variable key : A -> float.

Lemma insert_perm x l : Permutation (insert key x l) (x :: l).
Proof.
  induction l as [|y l IH]; simpl.
  - apply Permutation_refl.
  - destruct (key y <? key x).
    + eapply Permutation_trans; [apply perm_skip, IH | apply perm_swap].
    + apply Permutation_refl.
Qed.

Lemma list_sort_perm l : Permutation (list_sort key l) l.
Proof.
  induction l as [|x l IH]; simpl.
  - apply Permutation_refl.
  - eapply Permutation_trans; [apply insert_perm | apply perm_skip, IH].
Qed.

Lemma list_sort_length l : List.length (list_sort key l) = List.length l.
Proof. apply Permutation_length, list_sort_perm. Qed.

Lemma list_sort_nil l : list_sort key l = [] -> l = [].
Proof.
  intros H. apply length_zero_iff_nil.
  rewrite <- list_sort_length, H. reflexivity.
Qed.

(** The first element of the sorted list is the first element of the list
    whose key no other key is below: every element before it has a key
    strictly above its key, and no element after it has a key below. *)
Lemma list_sort_head l h t :
  Forall (fun x => is_nan (key x) = false) l ->
  list_sort key l = h :: t ->
  exists l1 l2,
    l = l1 ++ h :: l2
    /\ Forall (fun x => (key h <? key x) = true) l1
    /\ Forall (fun x => (key x <? key h) = false) l2.
Proof.
  revert h t. induction l as [|x l IH]; intros h t Hnan Hs.
  - discriminate.
  - simpl in Hs. inversion Hnan as [|? ? Hx Hl]; subst.
    destruct (list_sort key l) as [|h' t'] eqn:Hl'.
    + apply list_sort_nil in Hl'. subst l. simpl in Hs.
      injection Hs as <- <-. exists [], []. repeat split; constructor.
    + destruct (IH h' t' Hl eq_refl) as (l1 & l2 & -> & H1 & H2).
      simpl in Hs. destruct (key h' <? key x) eqn:Hlt.
      * injection Hs as <- _. exists (x :: l1), l2.
        repeat split; [constructor|]; assumption.
      * injection Hs as <- _. exists [], (l1 ++ h' :: l2).
        repeat split; [constructor|].
        apply Forall_app. split; [|constructor].
        -- eapply Forall_impl; [|exact H1]. intros a Ha. simpl in Ha.
           destruct (key a <? key x) eqn:Hax; [|reflexivity].
           rewrite (ltb_trans _ _ _ Ha Hax) in Hlt. discriminate.
        -- exact Hlt.
        -- assert (Hh' : is_nan (key h') = false).
           { rewrite Forall_forall in Hl. apply Hl, in_elt. }
           eapply Forall_impl; [|exact H2]. intros a Ha. simpl in Ha.
           exact (ltb_negtrans _ _ _ Hh' Ha Hlt).
Qed.

End Sort.
End SortFacts.

(** ** The loops of the program *)

Module LoopFacts.
Import PyFloat PyDatetime PyDatetimeFacts Chronocalc.

Local Open Scope float_scope.

Section Loops.
Context {E : Ephem} {C : Console}.
Variables (lon lat : string) (elevation searchalt searchaz : float).

Lemma samples_instants pos ts :
  map instant (samples pos lon lat elevation ts) = ts.
Proof.
  revert pos. induction ts as [|t ts IH]; intros pos; simpl.
  - reflexivity.
  - rewrite IH. reflexivity.
Qed.

Lemma samples_In pos ts t :
  In t ts ->
  exists b, In (t, compute b (mk_Observer lon lat elevation t))
               (samples pos lon lat elevation ts).
Proof.
  revert pos. induction ts as [|t' ts IH]; intros pos Hin; [contradiction|].
  destruct Hin as [->|Hin].
  - exists pos. left. reflexivity.
  - destruct (IH (compute pos (mk_Observer lon lat elevation t')) Hin)
      as (b & Hb).
    exists b. right. exact Hb.
Qed.

(** One iteration of the Sun loop appends the entry of its Sample when the
    Sample passes the test, and nothing otherwise. *)
Lemma sun_body_spec st t :
  let s := (t, compute (sun_pos st) (mk_Observer lon lat elevation t)) in
  sun_body lon lat elevation searchalt searchaz st t =
  mk_sun_state (snd s)
    (sun_results st ++
     (if accepts 3 searchalt searchaz s
      then [sun_entry searchalt searchaz s] else [])).
Proof.
  unfold sun_body, accepts, altitude, azimuth, sun_entry, score, instant.
  cbn [fst snd].
  destruct (_ && _); [reflexivity | now rewrite app_nil_r].
Qed.

Lemma sun_fold ts : forall st,
  fold_left (sun_body lon lat elevation searchalt searchaz) ts st =
  mk_sun_state
    (fold_left (fun p t => compute p (mk_Observer lon lat elevation t)) ts
               (sun_pos st))
    (sun_results st ++
     map (sun_entry searchalt searchaz)
       (filter (accepts 3 searchalt searchaz)
          (samples (sun_pos st) lon lat elevation ts))).
Proof.
  induction ts as [|t ts IH]; intros st.
  - simpl. rewrite !app_nil_r. destruct st; reflexivity.
  - cbn [fold_left]. rewrite IH, sun_body_spec. cbn [sun_pos sun_results snd].
    cbn [samples filter map].
    set (pos' := compute (sun_pos st) (mk_Observer lon lat elevation t)).
    f_equal. rewrite <- app_assoc. f_equal.
    destruct (accepts 3 searchalt searchaz (t, pos')); reflexivity.
Qed.

(** One iteration of the Moon loop adds the row of its Sample when the
    Sample passes the test, and nothing otherwise. *)
Lemma moon_body_spec st t :
  let s := (t, compute (moon_pos st) (mk_Observer lon lat elevation t)) in
  moon_body lon lat elevation searchalt searchaz st t =
  mk_moon_state (snd s)
    (moon_tab st ++
     (if accepts 2 searchalt searchaz s then [moon_row_of lon lat s] else []))
    (if accepts 2 searchalt searchaz s then false else empty_table st).
Proof.
  unfold moon_body, accepts, altitude, azimuth, moon_row_of, instant.
  cbn [fst snd].
  destruct (_ && _); [reflexivity | now rewrite app_nil_r].
Qed.

Lemma moon_fold ts : forall st,
  fold_left (moon_body lon lat elevation searchalt searchaz) ts st =
  let acc := filter (accepts 2 searchalt searchaz)
               (samples (moon_pos st) lon lat elevation ts) in
  mk_moon_state
    (fold_left (fun p t => compute p (mk_Observer lon lat elevation t)) ts
               (moon_pos st))
    (moon_tab st ++ map (moon_row_of lon lat) acc)
    (match acc with [] => empty_table st | _ :: _ => false end).
Proof.
  induction ts as [|t ts IH]; intros st.
  - simpl. rewrite !app_nil_r. destruct st; reflexivity.
  - cbn [fold_left]. rewrite IH, moon_body_spec.
    cbn [moon_pos moon_tab empty_table snd].
    cbn [samples filter map].
    set (pos' := compute (moon_pos st) (mk_Observer lon lat elevation t)).
    cbv zeta. f_equal.
    + rewrite <- app_assoc. f_equal.
      destruct (accepts 2 searchalt searchaz (t, pos')); reflexivity.
    + destruct (accepts 2 searchalt searchaz (t, pos')); [|reflexivity].
      destruct (filter _ _); reflexivity.
Qed.

End Loops.
End LoopFacts.

(** ** The search of one window *)

Module SearchFacts.
Import PyFloat PyFloatFacts PyDatetime PyDatetimeFacts Chronocalc.
Import SortFacts LoopFacts.

Local Open Scope float_scope.

(** Lists in strictly growing order. *)
Section Sorted.
Variables (A : Type) (R : A -> A -> Prop).

Lemma sorted_filter f l :
  StronglySorted R l -> StronglySorted R (filter f l).
Proof.
  induction 1 as [|x l Hl IH Hx]; simpl; [constructor|].
  destruct (f x); [|exact IH].
  constructor; [exact IH|].
  rewrite Forall_forall in Hx |- *. intros y Hy.
  apply filter_In in Hy. apply Hx, Hy.
Qed.

Lemma sorted_after l1 x l2 :
  StronglySorted R (l1 ++ x :: l2) -> Forall (R x) l2.
Proof.
  induction l1 as [|y l1 IH]; simpl; intros H; inversion H; subst; auto.
Qed.

Lemma sorted_map (B : Type) (g : B -> A) l :
  StronglySorted R (map g l) ->
  StronglySorted (fun a b => R (g a) (g b)) l.
Proof.
  induction l as [|x l IH]; simpl; intros H; [constructor|].
  inversion H; subst. constructor; [auto|].
  rewrite Forall_forall in *. intros y Hy. auto using in_map.
Qed.
End Sorted.

(** The instants of a grid grow strictly. *)
Lemma grid_sorted step :
  (0 < step)%Z ->
  forall n start, time_ok start = true ->
  StronglySorted (fun a b => (to_us a < to_us b)%Z) (grid start step n).
Proof.
  intros Hs. induction n as [|n IH]; intros start Hst.
  - constructor.
  - rewrite grid_S by assumption. constructor.
    + apply IH, add_minutes_time_ok, Hst.
    + apply Forall_forall. intros t Ht. unfold grid in Ht.
      apply in_map_iff in Ht. destruct Ht as (i & <- & _).
      rewrite !to_us_add_minutes. unfold us_per_minute. nia.
Qed.

Section Window.
Context {E : Ephem} {C : Console}.
Variables (lon lat : string) (elevation searchalt searchaz : float).

Lemma accepts_score_not_nan tol s :
  accepts tol searchalt searchaz s = true ->
  is_nan (score searchalt searchaz s) = false.
Proof.
  unfold accepts, score. intros H. apply andb_true_iff in H.
  destruct H as [Ha Hz]. eapply mul_abs_not_nan; eassumption.
Qed.

Lemma accepted_sorted tol pos calc_start calc_end step :
  (0 < step)%Z -> time_ok calc_start = true -> microsecond calc_start = 0%Z ->
  time_ok calc_end = true ->
  StronglySorted (fun a b => (to_us (instant a) < to_us (instant b))%Z)
    (accepted tol pos lon lat elevation searchalt searchaz
              calc_start calc_end step).
Proof.
  intros Hs Hst Hus Hen. unfold accepted. apply sorted_filter.
  apply (sorted_map _ (fun a b => (to_us a < to_us b)%Z) _ instant).
  rewrite samples_instants.
  rewrite rrule_minutely_grid by assumption.
  apply grid_sorted; assumption.
Qed.

Lemma accepted_time_ok tol pos calc_start calc_end step s :
  (0 < step)%Z -> time_ok calc_start = true -> microsecond calc_start = 0%Z ->
  time_ok calc_end = true ->
  In s (accepted tol pos lon lat elevation searchalt searchaz
                 calc_start calc_end step) ->
  time_ok (instant s) = true.
Proof.
  intros Hs Hst Hus Hen Hin. unfold accepted in Hin.
  apply filter_In in Hin. destruct Hin as [Hin _].
  apply (in_map instant) in Hin. rewrite samples_instants in Hin.
  rewrite rrule_minutely_grid in Hin by assumption.
  exact (grid_time_ok _ _ _ _ Hst Hin).
Qed.

(** The results of [calculate_sun], called with an empty list, are the
    entries of the accepted Samples, sorted. *)
Lemma calculate_sun_sorted calc_start calc_end accuracy :
  calculate_sun [] lon lat elevation searchalt searchaz
                calc_start calc_end accuracy =
  list_sort closeby
    (map (sun_entry searchalt searchaz)
       (accepted 3 Sun lon lat elevation searchalt searchaz
                 calc_start calc_end accuracy)).
Proof. unfold calculate_sun, sun_loop. rewrite sun_fold. reflexivity. Qed.

Lemma calculate_sun_length calc_start calc_end accuracy :
  List.length (calculate_sun [] lon lat elevation searchalt searchaz
                             calc_start calc_end accuracy) =
  List.length (accepted 3 Sun lon lat elevation searchalt searchaz
                        calc_start calc_end accuracy).
Proof.
  rewrite calculate_sun_sorted, list_sort_length, length_map. reflexivity.
Qed.

(** The first result of a window is the entry of its representative. *)
Lemma calculate_sun_best calc_start calc_end accuracy :
  (0 < accuracy)%Z -> time_ok calc_start = true ->
  microsecond calc_start = 0%Z -> time_ok calc_end = true ->
  let acc := accepted 3 Sun lon lat elevation searchalt searchaz
                      calc_start calc_end accuracy in
  match calculate_sun [] lon lat elevation searchalt searchaz
                      calc_start calc_end accuracy with
  | [] => acc = []
  | best :: _ =>
      exists s, is_best searchalt searchaz acc s
                /\ best = sun_entry searchalt searchaz s
  end.
Proof.
  intros Hs Hst Hus Hen acc. rewrite calculate_sun_sorted. fold acc.
  assert (Hnan : forall s, In s acc -> is_nan (score searchalt searchaz s) = false).
  { intros s Hin. unfold acc, accepted in Hin. apply filter_In in Hin.
    eapply accepts_score_not_nan, Hin. }
  pose proof (accepted_sorted 3 Sun calc_start calc_end accuracy
                Hs Hst Hus Hen) as Hsorted. fold acc in Hsorted.
  assert (Hok : forall s, In s acc -> time_ok (instant s) = true).
  { intros s Hin.
    exact (accepted_time_ok 3 Sun calc_start calc_end accuracy s
             Hs Hst Hus Hen Hin). }
  destruct (list_sort closeby (map (sun_entry searchalt searchaz) acc))
    as [|best rest] eqn:Hsort.
  - apply list_sort_nil in Hsort. eapply map_eq_nil, Hsort.
  - apply list_sort_head in Hsort.
    2:{ apply Forall_forall. intros e He. apply in_map_iff in He.
        destruct He as (s & <- & Hin). apply Hnan, Hin. }
    destruct Hsort as (l1 & l2 & Hl & H1 & H2).
    apply map_eq_app in Hl. destruct Hl as (a1 & a' & Hacc & <- & Ha').
    apply map_eq_cons in Ha'. destruct Ha' as (s & a2 & -> & <- & <-).
    rewrite Forall_map in H1, H2. rewrite Forall_forall in H1, H2.
    change (closeby (sun_entry searchalt searchaz s))
      with (score searchalt searchaz s) in H1, H2.
    exists s. split; [|reflexivity].
    assert (Hs_in : In s acc) by (rewrite Hacc; apply in_elt).
    assert (Hlow : forall s', In s' acc ->
              (score searchalt searchaz s' <? score searchalt searchaz s) = false).
    { intros s' Hin. rewrite Hacc in Hin. apply in_app_or in Hin.
      destruct Hin as [Hin|[<-|Hin]].
      - specialize (H1 _ Hin). cbn beta in H1.
        change (closeby (sun_entry searchalt searchaz s'))
          with (score searchalt searchaz s') in H1.
        destruct (score searchalt searchaz s' <? score searchalt searchaz s)
          eqn:Hlt; [|reflexivity].
        pose proof (ltb_trans _ _ _ H1 Hlt) as Hc.
        rewrite ltb_irrefl in Hc. discriminate.
      - apply ltb_irrefl.
      - apply (H2 _ Hin). }
    repeat split.
    + exact Hs_in.
    + intros s' Hin. apply nltb_leb; auto.
    + intros s' Hin Heq. rewrite dt_leb_to_us by auto. apply Z.leb_le.
      rewrite Hacc in Hin. apply in_app_or in Hin.
      destruct Hin as [Hin|[<-|Hin]].
      * specialize (H1 _ Hin). cbn beta in H1.
        change (closeby (sun_entry searchalt searchaz s'))
          with (score searchalt searchaz s') in H1.
        rewrite (ltb_eqb _ _ H1) in Heq. discriminate.
      * lia.
      * rewrite Hacc in Hsorted. apply sorted_after in Hsorted.
        rewrite Forall_forall in Hsorted. specialize (Hsorted _ Hin).
        cbn beta in Hsorted. lia.
Qed.

End Window.
End SearchFacts.

(** ** Two ephemerides that answer alike *)

Module OracleFacts.
Import PyFloat PyDatetime Chronocalc Spy LoopFacts SearchFacts.

Local Open Scope float_scope.

Section Simulation.
Variables (E1 E2 : Ephem) (C : Console).
Variable R : @Body E1 -> @Body E2 -> Prop.
Hypothesis R_compute :
  forall b1 b2 o, R b1 b2 -> R (compute b1 o) (compute b2 o).
Hypothesis R_read :
  forall b1 b2 o, R b1 b2 ->
    alt (compute b1 o) = alt (compute b2 o)
    /\ az (compute b1 o) = az (compute b2 o)
    /\ moon_phase (compute b1 o) = moon_phase (compute b2 o).
Variables (lon lat : string) (elevation searchalt searchaz : float).

Lemma sim_accepts tol b1 b2 t :
  alt b1 = alt b2 -> az b1 = az b2 ->
  accepts (E:=E1) tol searchalt searchaz (t, b1)
  = accepts (E:=E2) tol searchalt searchaz (t, b2).
Proof.
  intros Ha Hz. unfold accepts, altitude, azimuth. cbn [snd].
  rewrite Ha, Hz. reflexivity.
Qed.

Lemma sim_sun_entry b1 b2 t :
  alt b1 = alt b2 -> az b1 = az b2 ->
  sun_entry (E:=E1) searchalt searchaz (t, b1)
  = sun_entry (E:=E2) searchalt searchaz (t, b2).
Proof.
  intros Ha Hz. unfold sun_entry, score, altitude, azimuth, instant.
  cbn [fst snd]. rewrite Ha, Hz. reflexivity.
Qed.

Lemma sim_moon_row b1 b2 t :
  alt b1 = alt b2 -> az b1 = az b2 -> moon_phase b1 = moon_phase b2 ->
  moon_row_of (E:=E1) lon lat (t, b1) = moon_row_of (E:=E2) lon lat (t, b2).
Proof.
  intros Ha Hz Hp. unfold moon_row_of, altitude, azimuth, instant.
  cbn [fst snd]. rewrite Ha, Hz, Hp. reflexivity.
Qed.

Lemma sim_entries tol ts : forall b1 b2, R b1 b2 ->
  map (sun_entry (E:=E1) searchalt searchaz)
    (filter (accepts tol searchalt searchaz) (samples b1 lon lat elevation ts))
  = map (sun_entry (E:=E2) searchalt searchaz)
      (filter (accepts tol searchalt searchaz)
         (samples b2 lon lat elevation ts)).
Proof.
  induction ts as [|t ts IH]; intros b1 b2 HR; [reflexivity|].
  cbn [samples filter].
  destruct (R_read b1 b2 (mk_Observer lon lat elevation t) HR)
    as (Ha & Hz & _).
  rewrite (sim_accepts tol _ _ t Ha Hz).
  destruct (accepts tol searchalt searchaz _).
  - cbn [map]. rewrite (sim_sun_entry _ _ t Ha Hz). f_equal.
    apply IH, R_compute, HR.
  - apply IH, R_compute, HR.
Qed.

Lemma sim_rows tol ts : forall b1 b2, R b1 b2 ->
  map (moon_row_of (E:=E1) lon lat)
    (filter (accepts tol searchalt searchaz) (samples b1 lon lat elevation ts))
  = map (moon_row_of (E:=E2) lon lat)
      (filter (accepts tol searchalt searchaz)
         (samples b2 lon lat elevation ts)).
Proof.
  induction ts as [|t ts IH]; intros b1 b2 HR; [reflexivity|].
  cbn [samples filter].
  destruct (R_read b1 b2 (mk_Observer lon lat elevation t) HR)
    as (Ha & Hz & Hp).
  rewrite (sim_accepts tol _ _ t Ha Hz).
  destruct (accepts tol searchalt searchaz _).
  - cbn [map]. rewrite (sim_moon_row _ _ t Ha Hz Hp). f_equal.
    apply IH, R_compute, HR.
  - apply IH, R_compute, HR.
Qed.

Lemma sim_calculate_sun calc_start calc_end accuracy :
  R Sun Sun ->
  calculate_sun (E:=E1) [] lon lat elevation searchalt searchaz
                calc_start calc_end accuracy
  = calculate_sun (E:=E2) [] lon lat elevation searchalt searchaz
                  calc_start calc_end accuracy.
Proof.
  intros HR. rewrite !calculate_sun_sorted. unfold accepted.
  rewrite (sim_entries _ _ _ _ HR). reflexivity.
Qed.

Lemma sim_moon_loop startmoment endmoment :
  R Moon Moon ->
  let st1 := moon_loop (E:=E1) lon lat elevation searchalt searchaz
                       startmoment endmoment in
  let st2 := moon_loop (E:=E2) lon lat elevation searchalt searchaz
                       startmoment endmoment in
  moon_tab st1 = moon_tab st2 /\ empty_table st1 = empty_table st2.
Proof.
  intros HR. cbv zeta. unfold moon_loop. rewrite !moon_fold.
  cbn [moon_tab empty_table moon_pos app].
  pose proof (sim_rows 2 (rrule_minutely 15 startmoment endmoment)
                _ _ HR) as Hrows.
  split; [exact Hrows|].
  apply (f_equal (@List.length _)) in Hrows. rewrite !length_map in Hrows.
  destruct (filter _ _), (filter _ _); simpl in Hrows;
    reflexivity || discriminate.
Qed.

End Simulation.

(** The spy does not change what the program computes, and it has seen
    one call per instant, in the order of the instants. *)
Section SpyFacts.
Context {E : Ephem} {C : Console}.
Variables (lon lat : string) (elevation : float).

Lemma spy_fold_calls ts : forall b : @Body (spy E),
  calls (fold_left (fun p t => compute (Ephem:=spy E) p
                                 (mk_Observer lon lat elevation t)) ts b)
  = calls b ++ map (mk_Observer lon lat elevation) ts.
Proof.
  induction ts as [|t ts IH]; intros b; cbn [fold_left map].
  - now rewrite app_nil_r.
  - rewrite IH. unfold calls. cbn [compute spy snd].
    now rewrite <- app_assoc.
Qed.

End SpyFacts.
End OracleFacts.

(** * The properties of the search *)

Module Properties.
Import PyFloat PyFloatFacts PyDatetime PyDatetimeFacts Chronocalc Spy.
Import SortFacts LoopFacts SearchFacts OracleFacts.

Local Open Scope float_scope.

Section Year.
Context {E : Ephem} {C : Console}.

Lemma split_year_inv year date_solstice date_start date_end :
  split_year year = Ok (date_solstice, date_start, date_end) ->
  (MINYEAR <= year <= MAXYEAR)%Z
  /\ date_start = jan1 year /\ date_end = dec31 year
  /\ date_solstice =
     replace_minute_second_microsecond (next_solstice (jan1 year)) 0 0 0.
Proof.
  unfold split_year, datetime_, bind.
  destruct (datetime_new year 1 1 0 0 0) as [d|] eqn:Hd; [|discriminate].
  pose proof (datetime_new_year _ _ _ _ _ _ _ Hd) as Hy.
  rewrite (jan1_new year Hy) in Hd. injection Hd as <-.
  rewrite (dec31_new year Hy). intros H. injection H as <- <- <-.
  repeat split; lia.
Qed.

Lemma split_year_ok year :
  (MINYEAR <= year <= MAXYEAR)%Z ->
  split_year year =
  Ok (replace_minute_second_microsecond (next_solstice (jan1 year)) 0 0 0,
      jan1 year, dec31 year).
Proof.
  intros Hy. unfold split_year, datetime_, bind.
  rewrite (jan1_new year Hy), (dec31_new year Hy). reflexivity.
Qed.

Lemma truncated_time_ok d :
  valid d = true ->
  time_ok (replace_minute_second_microsecond d 0 0 0) = true.
Proof.
  intros H. apply valid_time_ok in H. rewrite time_ok_spec in *.
  simpl. lia.
Qed.

(** The three instants of a year are datetimes on a whole second. *)
Lemma split_year_time_ok year date_solstice date_start date_end :
  split_year year = Ok (date_solstice, date_start, date_end) ->
  time_ok date_start = true /\ microsecond date_start = 0%Z
  /\ time_ok date_solstice = true /\ microsecond date_solstice = 0%Z
  /\ time_ok date_end = true.
Proof.
  intros H. apply split_year_inv in H. destruct H as (Hy & -> & -> & ->).
  repeat split; try reflexivity.
  apply truncated_time_ok, next_solstice_valid, jan1_valid, Hy.
Qed.

(** C1: in Sun mode the row reported for each of the two windows is that
    of the accepted sample with the lowest score, the product of the two
    absolute deviations computed from the unrounded altitude and azimuth;
    among accepted samples of equal score it is the earliest. *)
Theorem best_match_reported year lon lat elevation searchalt searchaz
    accuracy out :
  (0 < accuracy)%Z ->
  get_sun_position year lon lat elevation searchalt searchaz accuracy
  = Ok out ->
  exists date_solstice date_start date_end sA sB,
    split_year year = Ok (date_solstice, date_start, date_end)
    /\ is_best searchalt searchaz
         (accepted 3 Sun lon lat elevation searchalt searchaz
                   date_start date_solstice accuracy) sA
    /\ is_best searchalt searchaz
         (accepted 3 Sun lon lat elevation searchalt searchaz
                   date_solstice date_end accuracy) sB
    /\ score searchalt searchaz sA
       = abs (alt (snd sA) / degree - searchalt)
         * abs (az (snd sA) / degree - searchaz)
    /\ out = [Line sun_header;
              SunTable [sun_row lon lat (sun_entry searchalt searchaz sA);
                        sun_row lon lat (sun_entry searchalt searchaz sB)]].
Proof.
  intros Hacc Hrun. unfold get_sun_position in Hrun.
  destruct (split_year year) as [[[sol start] stop]| |] eqn:Hsplit;
    try discriminate.
  cbn [bind] in Hrun.
  destruct (split_year_time_ok _ _ _ _ Hsplit) as (Hst & Hst0 & Hsol & Hsol0 & Hen).
  pose proof (calculate_sun_best lon lat elevation searchalt searchaz
                start sol accuracy Hacc Hst Hst0 Hsol) as HA.
  pose proof (calculate_sun_best lon lat elevation searchalt searchaz
                sol stop accuracy Hacc Hsol Hsol0 Hen) as HB.
  cbv zeta in HA, HB.
  destruct (Z.of_nat _ <? 2)%Z; [discriminate|].
  destruct (calculate_sun [] lon lat elevation searchalt searchaz
                          start sol accuracy) as [|r1 rest1];
    [discriminate|].
  destruct (calculate_sun [] lon lat elevation searchalt searchaz
                          sol stop accuracy) as [|r2 rest2];
    [discriminate|].
  cbn [index0 bind] in Hrun. injection Hrun as <-.
  destruct HA as (sA & HbestA & ->). destruct HB as (sB & HbestB & ->).
  exists sol, start, stop, sA, sB.
  split; [reflexivity|]. split; [exact HbestA|]. split; [exact HbestB|].
  split; reflexivity.
Qed.

(** The outcome of [get_sun_position] from the results of its two
    windows. *)
Lemma get_sun_position_cases year lon lat elevation searchalt searchaz
    accuracy :
  (MINYEAR <= year <= MAXYEAR)%Z ->
  let date_solstice :=
    replace_minute_second_microsecond (next_solstice (jan1 year)) 0 0 0 in
  let results1 := calculate_sun [] lon lat elevation searchalt searchaz
                                (jan1 year) date_solstice accuracy in
  let results2 := calculate_sun [] lon lat elevation searchalt searchaz
                                date_solstice (dec31 year) accuracy in
  get_sun_position year lon lat elevation searchalt searchaz accuracy =
  if (Z.of_nat (List.length results1) <? 2)%Z then Exit no_solution
  else
    r1 <- index0 results1 ;;
    r2 <- index0 results2 ;;
    Ok [Line sun_header; SunTable [sun_row lon lat r1; sun_row lon lat r2]].
Proof.
  intros Hy. unfold get_sun_position. rewrite (split_year_ok year Hy).
  reflexivity.
Qed.

Lemma get_moon_position_cases year lon lat elevation searchalt searchaz :
  (MINYEAR <= year <= MAXYEAR)%Z ->
  let acc := accepted 2 Moon lon lat elevation searchalt searchaz
                      (jan1 year) (dec31 year) 15 in
  get_moon_position year lon lat elevation searchalt searchaz =
  Ok match acc with
     | [] => [Line no_solution]
     | _ :: _ => [Line moon_header; MoonTable (map (moon_row_of lon lat) acc)]
     end.
Proof.
  intros Hy. unfold get_moon_position, datetime_.
  rewrite (jan1_new year Hy), (dec31_new year Hy). cbn [bind].
  unfold moon_loop. rewrite moon_fold. cbn [moon_tab empty_table moon_pos app].
  unfold accepted, jan1, dec31. destruct (filter _ _); reflexivity.
Qed.

(** C2: a sample is accepted exactly when both of its absolute deviations
    are strictly below the tolerance, 3 degrees for the Sun and 2 degrees
    for the Moon; a deviation equal to the tolerance rejects it. *)
Theorem tolerance_filter lon lat elevation searchalt searchaz
    calc_start calc_end accuracy :
  (forall st t,
     let s := (t, compute (sun_pos st) (mk_Observer lon lat elevation t)) in
     sun_results (sun_body lon lat elevation searchalt searchaz st t) =
     if (abs (altitude s - searchalt) <? 3) && (abs (azimuth s - searchaz) <? 3)
     then sun_results st ++ [sun_entry searchalt searchaz s]
     else sun_results st)
  /\ (forall st t,
     let s := (t, compute (moon_pos st) (mk_Observer lon lat elevation t)) in
     moon_tab (moon_body lon lat elevation searchalt searchaz st t) =
     if (abs (altitude s - searchalt) <? 2) && (abs (azimuth s - searchaz) <? 2)
     then moon_tab st ++ [moon_row_of lon lat s]
     else moon_tab st)
  /\ sun_results (sun_loop [] lon lat elevation searchalt searchaz
                           calc_start calc_end accuracy)
     = map (sun_entry searchalt searchaz)
         (filter (fun s => (abs (altitude s - searchalt) <? 3)
                           && (abs (azimuth s - searchaz) <? 3))
            (samples Sun lon lat elevation
                     (rrule_minutely accuracy calc_start calc_end)))
  /\ moon_tab (moon_loop lon lat elevation searchalt searchaz
                         calc_start calc_end)
     = map (moon_row_of lon lat)
         (filter (fun s => (abs (altitude s - searchalt) <? 2)
                           && (abs (azimuth s - searchaz) <? 2))
            (samples Moon lon lat elevation
                     (rrule_minutely 15 calc_start calc_end)))
  /\ (forall tol s,
        (abs (altitude s - searchalt) =? tol) = true
        \/ (abs (azimuth s - searchaz) =? tol) = true ->
        (abs (altitude s - searchalt) <? tol)
        && (abs (azimuth s - searchaz) <? tol) = false).
Proof.
  split; [|split; [|split; [|split]]].
  - intros st t s. rewrite sun_body_spec. cbn [sun_results].
    unfold accepts. fold s. destruct (_ && _); [reflexivity|apply app_nil_r].
  - intros st t s. rewrite moon_body_spec. cbn [moon_tab].
    unfold accepts. fold s. destruct (_ && _); [reflexivity|apply app_nil_r].
  - unfold sun_loop. rewrite sun_fold. reflexivity.
  - unfold moon_loop. rewrite moon_fold. reflexivity.
  - intros tol s [H|H]; apply eqb_nltb in H; rewrite H.
    + reflexivity.
    + apply andb_false_r.
Qed.

(** C4: in Moon mode a search that accepts no sample prints the message
    of no solution and ends with status 0; in Sun mode the search calls
    [sys.exit] with that message, a status other than 0, exactly when the
    first window has fewer than 2 accepted samples. *)
Theorem no_solution_outcomes year lon lat elevation searchalt searchaz
    accuracy :
  (MINYEAR <= year <= MAXYEAR)%Z ->
  let date_solstice :=
    replace_minute_second_microsecond (next_solstice (jan1 year)) 0 0 0 in
  let moon := get_moon_position year lon lat elevation searchalt searchaz in
  let sun :=
    get_sun_position year lon lat elevation searchalt searchaz accuracy in
  (accepted 2 Moon lon lat elevation searchalt searchaz
            (jan1 year) (dec31 year) 15 = [] ->
   moon = Ok [Line no_solution] /\ exit_status moon = 0%Z)
  /\ ((List.length (accepted 3 Sun lon lat elevation searchalt searchaz
                             (jan1 year) date_solstice accuracy) < 2)%nat
      <-> sun = Exit no_solution)
  /\ (sun = Exit no_solution -> exit_status sun <> 0%Z).
Proof.
  intros Hy sol moon sun. split; [|split].
  - intros Hnone. unfold moon.
    rewrite (get_moon_position_cases year lon lat elevation searchalt
               searchaz Hy). cbv zeta. rewrite Hnone. split; reflexivity.
  - unfold sun.
    rewrite (get_sun_position_cases year lon lat elevation searchalt
               searchaz accuracy Hy). cbv zeta. fold sol.
    rewrite calculate_sun_length.
    destruct (Z.ltb_spec
                (Z.of_nat (List.length
                   (accepted 3 Sun lon lat elevation searchalt searchaz
                             (jan1 year) sol accuracy))) 2) as [Hlt|Hge].
    + split; [reflexivity|lia].
    + split; [lia|]. intros H.
      destruct (calculate_sun [] lon lat elevation searchalt searchaz
                              (jan1 year) sol accuracy);
        cbn [index0 bind] in H; [discriminate|].
      destruct (calculate_sun [] lon lat elevation searchalt searchaz
                              sol (dec31 year) accuracy);
        cbn [index0 bind] in H; discriminate.
  - intros ->. discriminate.
Qed.


(** C3: for a year, [get_sun_position] searches two windows: the first
    from January 1, 00:00:00 to the solstice with its minutes, seconds and
    microseconds dropped, the second from that instant to December 31,
    23:59:00; an instant of both windows is that boundary. *)
Theorem window_partition year lon lat elevation searchalt searchaz accuracy :
  (MINYEAR <= year <= MAXYEAR)%Z ->
  exists date_solstice date_start date_end,
    split_year year = Ok (date_solstice, date_start, date_end)
    /\ get_sun_position year lon lat elevation searchalt searchaz accuracy
       = (let results1 := calculate_sun [] lon lat elevation searchalt
                            searchaz date_start date_solstice accuracy in
          let results2 := calculate_sun [] lon lat elevation searchalt
                            searchaz date_solstice date_end accuracy in
          if (Z.of_nat (List.length results1) <? 2)%Z then Exit no_solution
          else
            r1 <- index0 results1 ;;
            r2 <- index0 results2 ;;
            Ok [Line sun_header;
                SunTable [sun_row lon lat r1; sun_row lon lat r2]])
    /\ datetime_ year 1 1 0 0 0 = Ok date_start
    /\ date_start = mk_datetime (ymd2ord year 1 1) 0 0 0 0
    /\ datetime_ year 12 31 23 59 0 = Ok date_end
    /\ date_end = mk_datetime (ymd2ord year 12 31) 23 59 0 0
    /\ (ordinal date_end + 1 = ymd2ord (year + 1) 1 1)%Z
    /\ date_solstice =
       mk_datetime (ordinal (next_solstice date_start))
                   (hour (next_solstice date_start)) 0 0 0
    /\ (to_us date_solstice <= to_us (next_solstice date_start)
        < to_us date_solstice + 60 * us_per_minute)%Z
    /\ dt_leb date_solstice date_solstice = true
    /\ (forall t, valid t = true ->
          dt_leb date_start t = true -> dt_leb t date_solstice = true ->
          dt_leb date_solstice t = true -> dt_leb t date_end = true ->
          t = date_solstice).
Proof.
  intros Hy.
  exists (replace_minute_second_microsecond (next_solstice (jan1 year)) 0 0 0),
         (jan1 year), (dec31 year).
  pose proof (next_solstice_valid (jan1 year) (jan1_valid year Hy)) as Hv.
  pose proof (truncated_time_ok _ Hv) as Hsol.
  split; [apply split_year_ok, Hy|].
  split; [apply get_sun_position_cases, Hy|].
  split; [unfold datetime_; rewrite (jan1_new year Hy); reflexivity|].
  split; [reflexivity|].
  split; [unfold datetime_; rewrite (dec31_new year Hy); reflexivity|].
  split; [reflexivity|].
  split; [apply ymd2ord_dec31|].
  split; [reflexivity|].
  split.
  { apply valid_time_ok in Hv. rewrite time_ok_spec in Hv.
    unfold to_us, us_per_minute; simpl. lia. }
  split.
  { rewrite dt_leb_to_us by assumption. apply Z.leb_refl. }
  intros t Ht _ H1 H2 _. apply valid_time_ok in Ht.
  rewrite dt_leb_to_us in H1, H2 by assumption.
  apply Z.leb_le in H1, H2. apply to_us_inj; try assumption. lia.
Qed.


(** C8: azimuths are compared as raw degrees: with a target azimuth of 359
    a sample whose azimuth is 1 degree deviates by 358 degrees and is
    rejected in Sun mode (tolerance 3) and in Moon mode (tolerance 2). *)
Theorem azimuth_no_wraparound lon lat elevation searchalt sun_st moon_st t :
  az (compute (sun_pos sun_st) (mk_Observer lon lat elevation t)) / degree
  = 1 ->
  az (compute (moon_pos moon_st) (mk_Observer lon lat elevation t)) / degree
  = 1 ->
  abs (1 - 359) = 358
  /\ (abs (1 - 359) <? 3) = false
  /\ sun_results (sun_body lon lat elevation searchalt 359 sun_st t)
     = sun_results sun_st
  /\ moon_tab (moon_body lon lat elevation searchalt 359 moon_st t)
     = moon_tab moon_st
  /\ empty_table (moon_body lon lat elevation searchalt 359 moon_st t)
     = empty_table moon_st.
Proof.
  intros Hsun Hmoon. split; [reflexivity|]. split; [reflexivity|].
  unfold sun_body, moon_body. rewrite Hsun, Hmoon.
  change (abs (1 - 359) <? 3) with false.
  change (abs (1 - 359) <? 2) with false.
  rewrite !andb_false_r. repeat split; reflexivity.
Qed.

(** The spy answers as the ephemeris it wraps. *)
Lemma spy_sun_results results lon lat elevation searchalt searchaz
    calc_start calc_end accuracy :
  sun_results (sun_loop (E:=spy E) results lon lat elevation searchalt
                        searchaz calc_start calc_end accuracy)
  = sun_results (sun_loop (E:=E) results lon lat elevation searchalt
                          searchaz calc_start calc_end accuracy).
Proof.
  unfold sun_loop. rewrite !sun_fold. cbn [sun_results sun_pos]. f_equal.
  apply (sim_entries (spy E) E C (fun b1 b2 => fst b1 = b2)).
  - intros b1 b2 o <-. reflexivity.
  - intros b1 b2 o <-. repeat split; reflexivity.
  - reflexivity.
Qed.

(** C6: the sampler of a window from [calc_start] to [calc_end] with a
    step of [step] minutes enumerates floor((end - start) / step) + 1
    instants, the one of index i being start + i * step; they grow
    strictly, the last is not after the end and the next would be; the
    ephemeris is called once for each, in that order. *)
Theorem sampler_grid results lon lat elevation searchalt searchaz
    calc_start calc_end step :
  (0 < step)%Z -> valid calc_start = true -> microsecond calc_start = 0%Z ->
  valid calc_end = true -> dt_leb calc_start calc_end = true ->
  let n := Z.to_nat ((to_us calc_end - to_us calc_start)
                     / (step * us_per_minute) + 1) in
  let instants := rrule_minutely step calc_start calc_end in
  List.length instants = n
  /\ (forall i, (i < n)%nat ->
        nth i instants calc_start
        = add_minutes calc_start (Z.of_nat i * step))
  /\ (forall i j, (i < j < n)%nat ->
        dt_ltb (nth i instants calc_start) (nth j instants calc_start) = true)
  /\ (forall i, (i < n)%nat <->
        dt_leb (add_minutes calc_start (Z.of_nat i * step)) calc_end = true)
  /\ map instant (samples Sun lon lat elevation instants) = instants
  /\ calls (sun_pos (sun_loop (E:=spy E) results lon lat elevation searchalt
                              searchaz calc_start calc_end step))
     = map (mk_Observer lon lat elevation) instants
  /\ sun_results (sun_loop (E:=spy E) results lon lat elevation searchalt
                           searchaz calc_start calc_end step)
     = sun_results (sun_loop results lon lat elevation searchalt
                             searchaz calc_start calc_end step)
  /\ calls (moon_pos (moon_loop (E:=spy E) lon lat elevation searchalt
                                searchaz calc_start calc_end))
     = map (mk_Observer lon lat elevation)
           (rrule_minutely 15 calc_start calc_end).
Proof.
  intros Hs Hst Hus Hen Hle n instants.
  apply valid_time_ok in Hst, Hen.
  rewrite dt_leb_to_us in Hle by assumption. apply Z.leb_le in Hle.
  assert (Hgrid : instants = grid calc_start step n).
  { unfold instants, n. rewrite rrule_minutely_grid by assumption.
    rewrite ticks_count by assumption. reflexivity. }
  assert (Hn : n = ticks step calc_start calc_end).
  { unfold n. rewrite ticks_count by assumption. reflexivity. }
  split; [rewrite Hgrid; apply grid_length|].
  split; [intros i Hi; rewrite Hgrid; apply grid_nth, Hi|].
  split; [intros i j Hij; rewrite Hgrid; apply grid_increasing; assumption|].
  split.
  { intros i. rewrite Hn, (ticks_spec step calc_start calc_end i Hs Hle).
    rewrite dt_leb_to_us by (try apply add_minutes_time_ok; assumption).
    symmetry. apply Z.leb_le. }
  split; [apply samples_instants|].
  split.
  { unfold sun_loop. rewrite sun_fold. cbn [sun_pos].
    rewrite spy_fold_calls. reflexivity. }
  split; [apply spy_sun_results|].
  unfold moon_loop. rewrite moon_fold. cbn [moon_pos].
  rewrite spy_fold_calls. reflexivity.
Qed.

(** C10: for a step of 15 or of 2 minutes the solstice hour is an instant
    of the grid that starts on January 1 at 00:00: it is the last instant
    of the first window and the first of the second.  With an ephemeris
    that answers by observer and instant alone, its sample, when it passes
    the test, is a result of both windows, and when it is the first result
    of both, both rows of the table are its row. *)
Theorem boundary_sampled_twice year lon lat elevation searchalt searchaz
    accuracy :
  (MINYEAR <= year <= MAXYEAR)%Z -> accuracy = 15%Z \/ accuracy = 2%Z ->
  let date_solstice :=
    replace_minute_second_microsecond (next_solstice (jan1 year)) 0 0 0 in
  dt_leb (jan1 year) date_solstice = true ->
  dt_leb date_solstice (dec31 year) = true ->
  (forall b b' o, alt (compute b o) = alt (compute b' o)
                  /\ az (compute b o) = az (compute b' o)) ->
  let s := (date_solstice,
            compute Sun (mk_Observer lon lat elevation date_solstice)) in
  let results1 := calculate_sun [] lon lat elevation searchalt searchaz
                                (jan1 year) date_solstice accuracy in
  let results2 := calculate_sun [] lon lat elevation searchalt searchaz
                                date_solstice (dec31 year) accuracy in
  (exists k, (0 <= k)%Z
             /\ date_solstice = add_minutes (jan1 year) (k * accuracy))
  /\ last (rrule_minutely accuracy (jan1 year) date_solstice) (jan1 year)
     = date_solstice
  /\ hd_error (rrule_minutely accuracy date_solstice (dec31 year))
     = Some date_solstice
  /\ (accepts 3 searchalt searchaz s = true ->
      In (sun_entry searchalt searchaz s) results1
      /\ In (sun_entry searchalt searchaz s) results2)
  /\ (forall rest1 rest2,
        results1 = sun_entry searchalt searchaz s :: rest1 ->
        results2 = sun_entry searchalt searchaz s :: rest2 ->
        rest1 <> [] ->
        get_sun_position year lon lat elevation searchalt searchaz accuracy
        = Ok [Line sun_header;
              SunTable [sun_row lon lat (sun_entry searchalt searchaz s);
                        sun_row lon lat (sun_entry searchalt searchaz s)]]).
Proof.
  intros Hy Hacc sol HleA HleB Hdet s results1 results2.
  assert (Hpos : (0 < accuracy)%Z) by lia.
  pose proof (next_solstice_valid (jan1 year) (jan1_valid year Hy)) as Hv.
  pose proof (truncated_time_ok _ Hv) as Hsol. fold sol in Hsol.
  assert (Hst : time_ok (jan1 year) = true) by reflexivity.
  assert (Hen : time_ok (dec31 year) = true) by reflexivity.
  rewrite dt_leb_to_us in HleA, HleB by assumption.
  apply Z.leb_le in HleA, HleB.
  set (H := ((ordinal sol - ordinal (jan1 year)) * 24 + hour sol)%Z).
  assert (Hdiff : (to_us sol - to_us (jan1 year) = H * 60 * us_per_minute)%Z).
  { unfold H, to_us, us_per_minute, sol; simpl. lia. }
  assert (HH : (0 <= H)%Z) by (unfold us_per_minute in Hdiff; lia).
  set (k := (H * (60 / accuracy))%Z).
  assert (Hk : (k * accuracy = H * 60)%Z /\ (0 <= k)%Z).
  { unfold k. clearbody H.
    destruct Hacc as [-> | ->];
      [change (60 / 15)%Z with 4%Z | change (60 / 2)%Z with 30%Z]; lia. }
  destruct Hk as [Hk Hk0].
  assert (Hon : sol = add_minutes (jan1 year) (k * accuracy)).
  { apply to_us_inj; [assumption|apply add_minutes_time_ok, Hst|].
    rewrite to_us_add_minutes, Hk. lia. }
  assert (HticksA : ticks accuracy (jan1 year) sol = S (Z.to_nat k)).
  { rewrite ticks_count by assumption. rewrite Hdiff, <- Hk.
    replace (k * accuracy * us_per_minute)%Z
      with (k * (accuracy * us_per_minute))%Z by lia.
    rewrite Z.div_mul by (unfold us_per_minute; lia).
    rewrite Z2Nat.inj_add by lia. simpl. lia. }
  assert (HlastA : last (rrule_minutely accuracy (jan1 year) sol) (jan1 year)
                   = sol).
  { rewrite rrule_minutely_grid, HticksA, grid_last by (assumption || reflexivity).
    rewrite Z2Nat.id by assumption. symmetry. exact Hon. }
  assert (HhdB : exists rest,
             rrule_minutely accuracy sol (dec31 year) = sol :: rest).
  { rewrite rrule_minutely_grid by (assumption || reflexivity).
    rewrite (ticks_step accuracy sol (dec31 year) Hpos HleB).
    rewrite grid_S by assumption. eexists. reflexivity. }
  assert (HinA : In sol (rrule_minutely accuracy (jan1 year) sol)).
  { rewrite <- HlastA at 1.
    rewrite rrule_minutely_grid, HticksA by (assumption || reflexivity).
    rewrite grid_snoc, last_last. apply in_elt. }
  assert (Hentry : forall b,
            sun_entry searchalt searchaz
              (sol, compute b (mk_Observer lon lat elevation sol))
            = sun_entry searchalt searchaz s
            /\ accepts 3 searchalt searchaz
                 (sol, compute b (mk_Observer lon lat elevation sol))
               = accepts 3 searchalt searchaz s).
  { intros b. destruct (Hdet b Sun (mk_Observer lon lat elevation sol))
      as [Ha Hz].
    split; [apply sim_sun_entry | apply sim_accepts]; assumption. }
  assert (Hin : forall ts,
            In sol ts -> accepts 3 searchalt searchaz s = true ->
            In (sun_entry searchalt searchaz s)
               (map (sun_entry searchalt searchaz)
                  (filter (accepts 3 searchalt searchaz)
                     (samples Sun lon lat elevation ts)))).
  { intros ts Hts Hs.
    destruct (samples_In lon lat elevation Sun ts sol Hts) as (b & Hb).
    destruct (Hentry b) as [He Ha]. rewrite <- He.
    apply in_map, filter_In. split; [exact Hb|]. rewrite Ha. exact Hs. }
  split; [exists k; split; assumption|].
  split; [exact HlastA|].
  split; [destruct HhdB as (rest & ->); reflexivity|].
  split.
  - intros Hs. unfold results1, results2. rewrite !calculate_sun_sorted.
    split; (eapply Permutation_in;
            [apply Permutation_sym, list_sort_perm|]); apply Hin; auto.
    destruct HhdB as (rest & ->). left. reflexivity.
  - intros rest1 rest2 H1 H2 Hne.
    rewrite (get_sun_position_cases year lon lat elevation searchalt
               searchaz accuracy Hy). cbv zeta.
    fold sol. fold results1. fold results2. rewrite H1, H2.
    destruct rest1 as [|r rest1]; [contradiction|].
    destruct (Z.ltb_spec (Z.of_nat (List.length
                (sun_entry searchalt searchaz s :: r :: rest1))) 2)
      as [Hlt|_]; [cbn [List.length] in Hlt; lia|reflexivity].
Qed.

End Year.

Lemma split_year_ext (E1 E2 : Ephem) year :
  (forall d, next_solstice (Ephem:=E1) d = next_solstice (Ephem:=E2) d) ->
  split_year (E:=E1) year = split_year (E:=E2) year.
Proof.
  intros Hns. unfold split_year.
  destruct (datetime_ year 1 1 0 0 0); cbn [bind]; try reflexivity.
  rewrite Hns. reflexivity.
Qed.

(** C9: two searches with the same observer, target, year, mode and step
    give the same outcome, row for row, when each runs on an ephemeris
    whose readings are one function of the observer and the instant,
    whatever else the two ephemerides keep between calls. *)
Theorem search_deterministic (E1 E2 : Ephem) (C : Console)
    (reading : Observer -> float * float * float)
    year lon lat elevation searchalt searchaz accuracy :
  (forall b o, (alt (compute (Ephem:=E1) b o), az (compute b o),
                moon_phase (compute b o)) = reading o) ->
  (forall b o, (alt (compute (Ephem:=E2) b o), az (compute b o),
                moon_phase (compute b o)) = reading o) ->
  (forall d, next_solstice (Ephem:=E1) d = next_solstice (Ephem:=E2) d) ->
  get_sun_position (E:=E1) year lon lat elevation searchalt searchaz accuracy
  = get_sun_position (E:=E2) year lon lat elevation searchalt searchaz
                     accuracy
  /\ get_moon_position (E:=E1) year lon lat elevation searchalt searchaz
     = get_moon_position (E:=E2) year lon lat elevation searchalt searchaz
  /\ (forall calc_start calc_end,
        calculate_sun (E:=E1) [] lon lat elevation searchalt searchaz
                      calc_start calc_end accuracy
        = calculate_sun (E:=E2) [] lon lat elevation searchalt searchaz
                        calc_start calc_end accuracy)
  /\ (forall startmoment endmoment,
        moon_tab (moon_loop (E:=E1) lon lat elevation searchalt searchaz
                            startmoment endmoment)
        = moon_tab (moon_loop (E:=E2) lon lat elevation searchalt searchaz
                              startmoment endmoment))
  /\ (forall moon,
        main (E:=E1) (mk_Args year lat lon searchalt searchaz moon accuracy)
             elevation
        = main (E:=E2) (mk_Args year lat lon searchalt searchaz moon accuracy)
               elevation).
Proof.
  intros H1 H2 Hns.
  assert (Hstep : forall (b1 : @Body E1) (b2 : @Body E2) (o : Observer),
            True -> True) by auto.
  assert (Hread : forall (b1 : @Body E1) (b2 : @Body E2) (o : Observer),
            True ->
            alt (compute b1 o) = alt (compute b2 o)
            /\ az (compute b1 o) = az (compute b2 o)
            /\ moon_phase (compute b1 o) = moon_phase (compute b2 o)).
  { intros b1 b2 o _. pose proof (H1 b1 o) as Hb1.
    rewrite <- (H2 b2 o) in Hb1. injection Hb1 as -> -> ->. auto. }
  assert (Hsun : forall calc_start calc_end,
            calculate_sun (E:=E1) [] lon lat elevation searchalt searchaz
                          calc_start calc_end accuracy
            = calculate_sun (E:=E2) [] lon lat elevation searchalt searchaz
                            calc_start calc_end accuracy).
  { intros calc_start calc_end.
    exact (sim_calculate_sun E1 E2 C (fun _ _ => True) Hstep Hread
             lon lat elevation searchalt searchaz calc_start calc_end
             accuracy I). }
  assert (Hmoon : forall startmoment endmoment,
            moon_tab (moon_loop (E:=E1) lon lat elevation searchalt searchaz
                                startmoment endmoment)
            = moon_tab (moon_loop (E:=E2) lon lat elevation searchalt
                                  searchaz startmoment endmoment)
            /\ empty_table (moon_loop (E:=E1) lon lat elevation searchalt
                                      searchaz startmoment endmoment)
               = empty_table (moon_loop (E:=E2) lon lat elevation searchalt
                                        searchaz startmoment endmoment)).
  { intros startmoment endmoment.
    exact (sim_moon_loop E1 E2 C (fun _ _ => True) Hstep Hread
             lon lat elevation searchalt searchaz startmoment endmoment I). }
  assert (Hsunpos :
            get_sun_position (E:=E1) year lon lat elevation searchalt
                             searchaz accuracy
            = get_sun_position (E:=E2) year lon lat elevation searchalt
                               searchaz accuracy).
  { unfold get_sun_position. rewrite (split_year_ext E1 E2 year Hns).
    destruct (split_year (E:=E2) year) as [[[sol start] stop]| |];
      cbn [bind]; try reflexivity.
    rewrite !Hsun. reflexivity. }
  assert (Hmoonpos :
            get_moon_position (E:=E1) year lon lat elevation searchalt
                              searchaz
            = get_moon_position (E:=E2) year lon lat elevation searchalt
                                searchaz).
  { unfold get_moon_position.
    destruct (datetime_ year 1 1 0 0 0) as [start| |]; cbn [bind];
      try reflexivity.
    destruct (datetime_ year 12 31 23 59 0) as [stop| |]; cbn [bind];
      try reflexivity.
    destruct (Hmoon start stop) as [-> ->]. reflexivity. }
  split; [exact Hsunpos|]. split; [exact Hmoonpos|].
  split; [exact Hsun|]. split.
  - intros startmoment endmoment. apply Hmoon.
  - intros [|]; unfold main; cbn [arg_moon arg_year arg_lon arg_lat arg_alt
                                  arg_az arg_accuracy]; assumption.
Qed.

(** ** The properties on the test doubles

    The year 2024.  On the first double, with a step of 120 minutes, a
    target azimuth of 99 is met before the solstice hour only and one of
    300 never.  On the second double every sample has score 0, and with a
    step of 30 days the search reports the first instant of each window. *)

Lemma year_2024 : (MINYEAR <= 2024 <= MAXYEAR)%Z.
Proof. unfold MINYEAR, MAXYEAR. lia. Qed.

Lemma best_match_reported_witness :
  (0 < 43200)%Z
  /\ get_sun_position (E:=Double.still) (C:=Double.console)
       2024 "5" "52" 0 0 1 43200 = Ok Double.report
  /\ exists date_solstice date_start date_end sA sB,
       split_year (E:=Double.still) 2024
       = Ok (date_solstice, date_start, date_end)
       /\ is_best 0 1
            (accepted (E:=Double.still) 3 Sun "5" "52" 0 0 1
                      date_start date_solstice 43200) sA
       /\ is_best 0 1
            (accepted (E:=Double.still) 3 Sun "5" "52" 0 0 1
                      date_solstice date_end 43200) sB
       /\ score 0 1 sA
          = abs (alt (snd sA) / degree - 0) * abs (az (snd sA) / degree - 1)
       /\ Double.report
          = [Line sun_header;
             SunTable [sun_row (C:=Double.console) "5" "52"
                               (sun_entry (C:=Double.console) 0 1 sA);
                       sun_row (C:=Double.console) "5" "52"
                               (sun_entry (C:=Double.console) 0 1 sB)]].
Proof.
  assert (H0 : (0 < 43200)%Z) by lia.
  assert (Hrun : get_sun_position (E:=Double.still) (C:=Double.console)
                   2024 "5" "52" 0 0 1 43200 = Ok Double.report)
    by (vm_compute; reflexivity).
  split; [exact H0|]. split; [exact Hrun|].
  exact (best_match_reported (E:=Double.still) (C:=Double.console)
           2024 "5" "52" 0 0 1 43200 Double.report H0 Hrun).
Defined.

Lemma window_partition_witness :
  (MINYEAR <= 2024 <= MAXYEAR)%Z
  /\ exists date_solstice date_start date_end,
       split_year (E:=Double.ephem) 2024
       = Ok (date_solstice, date_start, date_end)
       /\ date_solstice = Double.solstice_hour
       /\ date_start = mk_datetime 738886 0 0 0 0
       /\ date_end = mk_datetime 739251 23 59 0 0.
Proof.
  split; [exact year_2024|].
  destruct (window_partition (E:=Double.ephem) (C:=Double.console)
              2024 "5" "52" 0 10 102.5 15 year_2024)
    as (sol & start & stop & Hsplit & _ & _ & Hstart & _ & Hend & _ & Hsol & _).
  exists sol, start, stop. rewrite Hsplit. subst sol start stop.
  repeat split; reflexivity.
Defined.

Lemma no_solution_outcomes_witness :
  (MINYEAR <= 2024 <= MAXYEAR)%Z
  /\ get_sun_position (E:=Double.ephem) (C:=Double.console)
       2024 "5" "52" 0 10 300 120 = Exit no_solution
  /\ exit_status (get_sun_position (E:=Double.ephem) (C:=Double.console)
                    2024 "5" "52" 0 10 300 120) <> 0%Z.
Proof.
  split; [exact year_2024|].
  destruct (no_solution_outcomes (E:=Double.ephem) (C:=Double.console)
              2024 "5" "52" 0 10 300 120 year_2024) as (_ & Hsun & Hexit).
  assert (Hrun : get_sun_position (E:=Double.ephem) (C:=Double.console)
                   2024 "5" "52" 0 10 300 120 = Exit no_solution)
    by (apply Hsun; vm_compute; lia).
  split; [exact Hrun|exact (Hexit Hrun)].
Defined.


Lemma sampler_grid_witness :
  (0 < 15)%Z
  /\ valid (jan1 2024) = true /\ microsecond (jan1 2024) = 0%Z
  /\ valid Double.solstice_hour = true
  /\ dt_leb (jan1 2024) Double.solstice_hour = true
  /\ Z.of_nat (List.length
                 (rrule_minutely 15 (jan1 2024) Double.solstice_hour))
     = 16497%Z
  /\ calls (sun_pos (sun_loop (E:=spy Double.ephem) (C:=Double.console)
                              [] "5" "52" 0 10 102.5
                              (jan1 2024) Double.solstice_hour 15))
     = map (mk_Observer "5" "52" 0)
           (rrule_minutely 15 (jan1 2024) Double.solstice_hour).
Proof.
  assert (H0 : (0 < 15)%Z) by lia.
  assert (H1 : valid (jan1 2024) = true) by reflexivity.
  assert (H2 : microsecond (jan1 2024) = 0%Z) by reflexivity.
  assert (H3 : valid Double.solstice_hour = true) by reflexivity.
  assert (H4 : dt_leb (jan1 2024) Double.solstice_hour = true) by reflexivity.
  destruct (sampler_grid (E:=Double.ephem) (C:=Double.console)
              [] "5" "52" 0 10 102.5 (jan1 2024) Double.solstice_hour 15
              H0 H1 H2 H3 H4)
    as (Hlen & _ & _ & _ & _ & Hcalls & _).
  split; [exact H0|]. split; [exact H1|]. split; [exact H2|].
  split; [exact H3|]. split; [exact H4|]. split; [|exact Hcalls].
  rewrite Hlen. vm_compute. reflexivity.
Defined.


Lemma azimuth_no_wraparound_witness :
  az (compute (Ephem:=Double.still) tt
        (mk_Observer "5" "52" 0 (jan1 2024))) / degree = 1
  /\ sun_results
       (sun_body (E:=Double.still) (C:=Double.console) "5" "52" 0 0 359
          (mk_sun_state (E:=Double.still) tt []) (jan1 2024)) = []
  /\ moon_tab
       (moon_body (E:=Double.still) (C:=Double.console) "5" "52" 0 0 359
          (mk_moon_state (E:=Double.still) tt [] true) (jan1 2024)) = [].
Proof.
  assert (H : az (compute (Ephem:=Double.still) tt
                    (mk_Observer "5" "52" 0 (jan1 2024))) / degree = 1)
    by reflexivity.
  destruct (azimuth_no_wraparound (E:=Double.still) (C:=Double.console)
              "5" "52" 0 0
              (mk_sun_state (E:=Double.still) tt [])
              (mk_moon_state (E:=Double.still) tt [] true)
              (jan1 2024) H H) as (_ & _ & Hsun & Hmoon & _).
  split; [exact H|]. split; [exact Hsun|exact Hmoon].
Defined.

Lemma search_deterministic_witness :
  get_sun_position (E:=Double.ephem) (C:=Double.console)
    2024 "5" "52" 0 10 102.5 15
  = get_sun_position (E:=spy Double.ephem) (C:=Double.console)
      2024 "5" "52" 0 10 102.5 15.
Proof.
  refine (proj1 (search_deterministic Double.ephem (spy Double.ephem)
                   Double.console Double.reading
                   2024 "5" "52" 0 10 102.5 15 _ _ _));
    intros; reflexivity.
Defined.

Lemma boundary_sampled_twice_witness :
  (MINYEAR <= 2024 <= MAXYEAR)%Z
  /\ dt_leb (jan1 2024) Double.solstice_hour = true
  /\ dt_leb Double.solstice_hour (dec31 2024) = true
  /\ (exists k, (0 <= k)%Z
        /\ Double.solstice_hour = add_minutes (jan1 2024) (k * 15))
  /\ last (rrule_minutely 15 (jan1 2024) Double.solstice_hour) (jan1 2024)
     = Double.solstice_hour
  /\ hd_error (rrule_minutely 15 Double.solstice_hour (dec31 2024))
     = Some Double.solstice_hour.
Proof.
  assert (HA : dt_leb (jan1 2024) Double.solstice_hour = true) by reflexivity.
  assert (HB : dt_leb Double.solstice_hour (dec31 2024) = true) by reflexivity.
  assert (Hdet : forall (b b' : @Body Double.ephem) (o : Observer),
            alt (compute b o) = alt (compute b' o)
            /\ az (compute b o) = az (compute b' o))
    by (intros; split; reflexivity).
  destruct (boundary_sampled_twice (E:=Double.ephem) (C:=Double.console)
              2024 "5" "52" 0 10 102.5 15 year_2024 (or_introl eq_refl)
              HA HB Hdet) as (Hk & Hlast & Hhd & _).
  split; [exact year_2024|]. split; [exact HA|]. split; [exact HB|].
  split; [exact Hk|]. split; [exact Hlast|exact Hhd].
Defined.

End Properties.

(** * More of the program *)

(** ** Scores and the order of the results *)

Module OrderFacts.
Import PyFloat PyFloatFacts PyDatetime PyDatetimeFacts Chronocalc.
Import SortFacts LoopFacts SearchFacts.

Local Open Scope float_scope.





Lemma SFnlt_eqb x y :
  SFnan x = false -> SFnan y = false ->
  SFltb x y = false -> SFltb y x = false -> SFeqb x y = true.
Proof.
  unfold SFltb, SFeqb.
  destruct x as [[]|[]| |[] mx ex], y as [[]|[]| |[] my ey];
    simpl; try congruence;
    intros; cmp_cases; simpl in *; subst; try congruence; try lia.
Qed.

(** Two numbers neither of which is below the other are equal. *)
Lemma nlt_eqb x y :
  is_nan x = false -> is_nan y = false ->
  (x <? y) = false -> (y <? x) = false -> (x =? y) = true.
Proof. rewrite !is_nan_spec, !ltb_spec, eqb_spec. apply SFnlt_eqb. Qed.


(** The stable sort of a list that some order [R] sorts: a key never
    precedes a lower one, and equal keys keep the order [R]. *)
Section Stable.
Variables (A : Type) (key : A -> float) (R : A -> A -> Prop).

Definition ranked (a b : A) : Prop :=
  (key a <? key b) = true \/ ((key b <? key a) = false /\ R a b).

Lemma insert_ranked x l :
  Forall (fun a => is_nan (key a) = false) l ->
  Forall (R x) l ->
  StronglySorted ranked l -> StronglySorted ranked (insert key x l).
Proof.
  intros Hnan HR Hs. induction Hs as [|y l Hs IH Hy]; simpl.
  - repeat constructor.
  - inversion Hnan as [|? ? Hny Hnl]; subst.
    inversion HR as [|? ? HRy HRl]; subst.
    destruct (key y <? key x) eqn:Hlt.
    + constructor; [apply IH; assumption|].
      apply (Permutation_Forall (Permutation_sym (insert_perm A key x l))).
      constructor; [left; exact Hlt|exact Hy].
    + constructor; [constructor; assumption|].
      constructor; [right; split; assumption|].
      rewrite Forall_forall in Hy, HRl |- *. intros z Hz.
      right. split; [|apply HRl, Hz].
      apply (ltb_negtrans _ (key y)); [exact Hny| |exact Hlt].
      destruct (Hy z Hz) as [Hyz|[Hzy _]]; [|exact Hzy].
      destruct (key z <? key y) eqn:Hzy; [|reflexivity].
      pose proof (ltb_trans _ _ _ Hyz Hzy) as Hc.
      rewrite ltb_irrefl in Hc. discriminate.
Qed.

Lemma list_sort_ranked l :
  Forall (fun a => is_nan (key a) = false) l ->
  StronglySorted R l -> StronglySorted ranked (list_sort key l).
Proof.
  intros Hnan Hs. induction Hs as [|x l Hs IH Hx]; simpl; [constructor|].
  inversion Hnan as [|? ? Hnx Hnl]; subst.
  apply insert_ranked.
  - apply (Permutation_Forall (Permutation_sym (list_sort_perm A key l))), Hnl.
  - apply (Permutation_Forall (Permutation_sym (list_sort_perm A key l))), Hx.
  - apply IH, Hnl.
Qed.

End Stable.

Lemma sorted_of_map (A B : Type) (R : A -> A -> Prop) (g : B -> A) l :
  StronglySorted (fun a b => R (g a) (g b)) l -> StronglySorted R (map g l).
Proof.
  induction 1 as [|x l Hl IH Hx]; simpl; constructor; [exact IH|].
  rewrite Forall_map. exact Hx.
Qed.

End OrderFacts.

(** ** What the searches do beyond the representative match *)

Module Extras.
Import PyFloat PyFloatFacts PyDatetime PyDatetimeFacts Chronocalc Spy.
Import SortFacts LoopFacts SearchFacts OracleFacts OrderFacts.

Local Open Scope float_scope.

Lemma sorted_weaken (A : Type) (R R' : A -> A -> Prop) l :
  (forall a b, In a l -> In b l -> R a b -> R' a b) ->
  StronglySorted R l -> StronglySorted R' l.
Proof.
  intros H Hs. induction Hs as [|x l Hs IH Hx]; constructor.
  - apply IH. intros a b Ha Hb. apply H; now right.
  - rewrite Forall_forall in Hx |- *. intros y Hy.
    apply H; [now left|now right|apply Hx, Hy].
Qed.

(** An instant of the grid of a window lies between its two ends. *)
Lemma grid_bounds step start until t :
  (0 < step)%Z -> time_ok start = true ->
  In t (grid start step (ticks step start until)) ->
  (to_us start <= to_us t <= to_us until)%Z.
Proof.
  intros Hs Hst Hin.
  destruct (Z.lt_ge_cases (to_us until) (to_us start)) as [Hlt|Hle].
  - rewrite ticks_after in Hin by assumption. contradiction.
  - unfold grid in Hin. apply in_map_iff in Hin.
    destruct Hin as (i & <- & Hi). apply in_seq in Hi.
    assert (Hi' : (i < ticks step start until)%nat) by lia.
    apply (ticks_spec step start until i Hs Hle) in Hi'.
    split; [|exact Hi'].
    rewrite to_us_add_minutes. unfold us_per_minute. nia.
Qed.

(** On a grid that starts on the hour with a step that divides the hour,
    every instant is on a multiple of the step, at the second of the
    start. *)
Lemma grid_minute step start n t :
  (0 < step)%Z -> (step | 60)%Z -> minute start = 0%Z ->
  In t (grid start step n) ->
  (minute t mod step = 0)%Z /\ second t = second start
  /\ microsecond t = microsecond start.
Proof.
  intros Hs Hdiv Hm Hin. unfold grid in Hin. apply in_map_iff in Hin.
  destruct Hin as (i & <- & _). unfold add_minutes; simpl.
  repeat split. rewrite Hm, Z.add_0_l.
  rewrite Z.mod_mod_divide by assumption.
  apply Z.mod_mul. lia.
Qed.

Section Window.
Context {E : Ephem} {C : Console}.
Variables (lon lat : string) (elevation searchalt searchaz : float).

(** An entry of the results of a window is the entry of a Sample that
    passed the test at an instant of the window. *)
Lemma result_sample calc_start calc_end accuracy e :
  (0 < accuracy)%Z -> time_ok calc_start = true ->
  microsecond calc_start = 0%Z -> time_ok calc_end = true ->
  In e (calculate_sun [] lon lat elevation searchalt searchaz
                      calc_start calc_end accuracy) ->
  exists s,
    e = sun_entry searchalt searchaz s
    /\ accepts 3 searchalt searchaz s = true
    /\ In (instant s) (grid calc_start accuracy
                            (ticks accuracy calc_start calc_end))
    /\ time_ok (instant s) = true.
Proof.
  intros Hs Hst Hus Hen Hin. rewrite calculate_sun_sorted in Hin.
  apply (Permutation_in _ (list_sort_perm _ closeby _)) in Hin.
  apply in_map_iff in Hin. destruct Hin as (s & <- & Hin).
  exists s. split; [reflexivity|].
  pose proof (accepted_time_ok lon lat elevation searchalt searchaz 3 Sun
                calc_start calc_end accuracy s Hs Hst Hus Hen Hin) as Hok.
  unfold accepted in Hin. apply filter_In in Hin. destruct Hin as [Hin Ha].
  split; [exact Ha|]. split; [|exact Hok].
  apply (in_map instant) in Hin. rewrite samples_instants in Hin.
  rewrite rrule_minutely_grid in Hin by assumption. exact Hin.
Qed.

(** X1: [calculate_sun] keeps what the list it is given already holds:
    its result is a rearrangement of that list followed by the entries of
    the accepted samples, nothing lost and nothing repeated. *)
Theorem calculate_sun_keeps_results results calc_start calc_end accuracy :
  Permutation
    (calculate_sun results lon lat elevation searchalt searchaz
                   calc_start calc_end accuracy)
    (results ++ map (sun_entry searchalt searchaz)
                    (accepted 3 Sun lon lat elevation searchalt searchaz
                              calc_start calc_end accuracy))
  /\ List.length (calculate_sun results lon lat elevation searchalt searchaz
                                calc_start calc_end accuracy)
     = (List.length results
        + List.length (accepted 3 Sun lon lat elevation searchalt searchaz
                                calc_start calc_end accuracy))%nat.
Proof.
  assert (H : Permutation
            (calculate_sun results lon lat elevation searchalt searchaz
                           calc_start calc_end accuracy)
            (results ++ map (sun_entry searchalt searchaz)
               (accepted 3 Sun lon lat elevation searchalt searchaz
                         calc_start calc_end accuracy))).
  { unfold calculate_sun, sun_loop. rewrite sun_fold. cbn [sun_results].
    apply list_sort_perm. }
  split; [exact H|].
  rewrite (Permutation_length H), length_app, length_map. reflexivity.
Qed.

(** X2: the results of a window, from first to last, never go down in
    score, and entries of equal score stand in the order of their
    instants. *)
Theorem calculate_sun_ordered calc_start calc_end accuracy :
  (0 < accuracy)%Z -> valid calc_start = true ->
  microsecond calc_start = 0%Z -> valid calc_end = true ->
  StronglySorted
    (fun a b =>
       (closeby a <? closeby b) = true
       \/ ((closeby a =? closeby b) = true
           /\ dt_ltb (timewindow_of a) (timewindow_of b) = true))
    (calculate_sun [] lon lat elevation searchalt searchaz
                   calc_start calc_end accuracy).
Proof.
  intros Hs Hst Hus Hen. apply valid_time_ok in Hst, Hen.
  set (acc := accepted 3 Sun lon lat elevation searchalt searchaz
                       calc_start calc_end accuracy).
  assert (Hnan : Forall (fun e => is_nan (closeby e) = false)
                   (map (sun_entry searchalt searchaz) acc)).
  { rewrite Forall_map. apply Forall_forall. intros s Hin.
    unfold acc, accepted in Hin. apply filter_In in Hin.
    exact (accepts_score_not_nan searchalt searchaz 3 s (proj2 Hin)). }
  assert (Hchron : StronglySorted
            (fun a b => (to_us (timewindow_of a) < to_us (timewindow_of b))%Z)
            (map (sun_entry searchalt searchaz) acc)).
  { apply sorted_of_map.
    exact (accepted_sorted lon lat elevation searchalt searchaz 3 Sun
             calc_start calc_end accuracy Hs Hst Hus Hen). }
  pose proof (list_sort_ranked _ closeby _ _ Hnan Hchron) as Hranked.
  rewrite calculate_sun_sorted. fold acc.
  refine (sorted_weaken _ _ _ _ _ Hranked).
  intros a b Ha Hb [Hlt|[Hge Htime]]; [left; exact Hlt|].
  assert (Hin : forall e,
            In e (list_sort closeby (map (sun_entry searchalt searchaz) acc)) ->
            is_nan (closeby e) = false /\ time_ok (timewindow_of e) = true).
  { intros e He.
    apply (Permutation_in _ (list_sort_perm _ closeby _)) in He.
    split; [rewrite Forall_forall in Hnan; apply Hnan, He|].
    apply in_map_iff in He. destruct He as (s & <- & Hs').
    exact (accepted_time_ok lon lat elevation searchalt searchaz 3 Sun
             calc_start calc_end accuracy s Hs Hst Hus Hen Hs'). }
  destruct (Hin a Ha) as [Hna Hta]. destruct (Hin b Hb) as [Hnb Htb].
  destruct (closeby a <? closeby b) eqn:Hab; [left; reflexivity|].
  right. split; [apply nlt_eqb; assumption|].
  rewrite dt_ltb_to_us by assumption. apply Z.ltb_lt, Htime.
Qed.



End Window.

Lemma datetime_new_bad_year year month day hh mm ss :
  ~ (MINYEAR <= year <= MAXYEAR)%Z ->
  datetime_new year month day hh mm ss = None.
Proof.
  intros H. unfold datetime_new.
  destruct (Z.leb_spec MINYEAR year), (Z.leb_spec year MAXYEAR);
    cbn [andb]; try reflexivity.
  lia.
Qed.

Lemma year_range_dec year :
  (MINYEAR <= year <= MAXYEAR)%Z \/ ~ (MINYEAR <= year <= MAXYEAR)%Z.
Proof. lia. Qed.

(** The days of a year: 365, or 366 in a leap year. *)
Definition days_in_year (year : Z) : Z :=
  (365 + (if is_leap year then 1 else 0))%Z.

Lemma minutes_of_year year :
  (to_us (dec31 year) - to_us (jan1 year)
   = (days_in_year year * 1440 - 1) * us_per_minute)%Z.
Proof.
  unfold to_us, dec31, jan1, us_per_minute, days_in_year; simpl.
  pose proof (ymd2ord_dec31 year) as H31.
  rewrite ymd2ord_jan1 in *. rewrite days_before_year_succ in H31.
  destruct (is_leap year); lia.
Qed.


Section Year.
Context {E : Ephem} {C : Console}.
Variables (lon lat : string) (elevation searchalt searchaz : float).

Lemma sun_cases year accuracy :
  (MINYEAR <= year <= MAXYEAR)%Z ->
  get_sun_position year lon lat elevation searchalt searchaz accuracy =
  let date_solstice :=
    replace_minute_second_microsecond (next_solstice (jan1 year)) 0 0 0 in
  let results1 := calculate_sun [] lon lat elevation searchalt searchaz
                                (jan1 year) date_solstice accuracy in
  let results2 := calculate_sun [] lon lat elevation searchalt searchaz
                                date_solstice (dec31 year) accuracy in
  if (Z.of_nat (List.length results1) <? 2)%Z then Exit no_solution
  else
    r1 <- index0 results1 ;;
    r2 <- index0 results2 ;;
    Ok [Line sun_header; SunTable [sun_row lon lat r1; sun_row lon lat r2]].
Proof.
  intros Hy. unfold get_sun_position, split_year, datetime_.
  rewrite (jan1_new year Hy), (dec31_new year Hy). reflexivity.
Qed.


(** X5: when [get_sun_position] prints its table, each of the two rows
    belongs to a sample within 3 degrees of the target on both axes; the
    first was taken between January 1 and the solstice hour, the second
    between the solstice hour and December 31, so the first row is never
    later than the second. *)
Theorem sun_rows_in_windows year accuracy out :
  (0 < accuracy)%Z ->
  get_sun_position year lon lat elevation searchalt searchaz accuracy
  = Ok out ->
  let date_solstice :=
    replace_minute_second_microsecond (next_solstice (jan1 year)) 0 0 0 in
  exists sA sB,
    out = [Line sun_header;
           SunTable [sun_row lon lat (sun_entry searchalt searchaz sA);
                     sun_row lon lat (sun_entry searchalt searchaz sB)]]
    /\ accepts 3 searchalt searchaz sA = true
    /\ accepts 3 searchalt searchaz sB = true
    /\ dt_leb (jan1 year) (instant sA) = true
    /\ dt_leb (instant sA) date_solstice = true
    /\ dt_leb date_solstice (instant sB) = true
    /\ dt_leb (instant sB) (dec31 year) = true
    /\ dt_leb (instant sA) (instant sB) = true.
Proof.
  intros Hacc Hrun sol.
  destruct (year_range_dec year) as [Hy|Hy].
  2:{ unfold get_sun_position, split_year, datetime_ in Hrun.
      rewrite (datetime_new_bad_year year 1 1 0 0 0 Hy) in Hrun.
      discriminate. }
  rewrite (sun_cases year accuracy Hy) in Hrun. cbv zeta in Hrun.
  fold sol in Hrun.
  pose proof (next_solstice_valid (jan1 year) (jan1_valid year Hy)) as Hv.
  assert (Hsol : time_ok sol = true).
  { apply valid_time_ok in Hv. rewrite time_ok_spec in *. simpl. lia. }
  assert (Hst : time_ok (jan1 year) = true) by reflexivity.
  assert (Hen : time_ok (dec31 year) = true) by reflexivity.
  destruct (Z.of_nat _ <? 2)%Z; [discriminate|].
  pose proof (result_sample lon lat elevation searchalt searchaz
                (jan1 year) sol accuracy) as HA.
  pose proof (result_sample lon lat elevation searchalt searchaz
                sol (dec31 year) accuracy) as HB.
  destruct (calculate_sun [] lon lat elevation searchalt searchaz
                          (jan1 year) sol accuracy) as [|r1 rest1];
    [discriminate|].
  destruct (calculate_sun [] lon lat elevation searchalt searchaz
                          sol (dec31 year) accuracy) as [|r2 rest2];
    [discriminate|].
  cbn [index0 bind] in Hrun. injection Hrun as <-.
  destruct (HA r1 Hacc Hst eq_refl Hsol (or_introl eq_refl))
    as (sA & -> & HaA & HgA & HokA).
  destruct (HB r2 Hacc Hsol eq_refl Hen (or_introl eq_refl))
    as (sB & -> & HaB & HgB & HokB).
  apply (grid_bounds accuracy (jan1 year) sol _ Hacc Hst) in HgA.
  apply (grid_bounds accuracy sol (dec31 year) _ Hacc Hsol) in HgB.
  exists sA, sB. rewrite !dt_leb_to_us by assumption.
  repeat split; try assumption; apply Z.leb_le; lia.
Qed.


Lemma samples_count pos ts :
  List.length (samples pos lon lat elevation ts) = List.length ts.
Proof.
  rewrite <- (samples_instants lon lat elevation pos ts) at 2.
  now rewrite length_map.
Qed.

(** The instants of the year on the grid of 15 minutes. *)
Lemma year_ticks year :
  ticks 15 (jan1 year) (dec31 year) = Z.to_nat (96 * days_in_year year).
Proof.
  assert (Hd : (365 <= days_in_year year)%Z)
    by (unfold days_in_year; destruct (is_leap year); lia).
  rewrite ticks_count; [|lia|pose proof (minutes_of_year year) as H;
                              unfold us_per_minute in H; nia].
  rewrite minutes_of_year. f_equal.
  rewrite Z.div_mul_cancel_r by (unfold us_per_minute; lia).
  Z.div_mod_to_equations. lia.
Qed.

(** X7: the Moon search samples 96 instants for each day of the year,
    35040 or 35136 in all, from January 1 at 00:00 to December 31 at
    23:45, and calls the ephemeris once for each; the table cannot have
    more rows; the step stored by [--accurate] plays no part. *)
Theorem moon_sample_count year :
  (MINYEAR <= year <= MAXYEAR)%Z ->
  let instants := rrule_minutely 15 (jan1 year) (dec31 year) in
  let st := moon_loop lon lat elevation searchalt searchaz
                      (jan1 year) (dec31 year) in
  Z.of_nat (List.length instants) = (96 * days_in_year year)%Z
  /\ hd_error instants = Some (jan1 year)
  /\ last instants (jan1 year) = mk_datetime (ymd2ord year 12 31) 23 45 0 0
  /\ Z.of_nat (List.length
                 (calls (moon_pos (moon_loop (E:=spy E) lon lat elevation
                                      searchalt searchaz
                                      (jan1 year) (dec31 year)))))
     = (96 * days_in_year year)%Z
  /\ (Z.of_nat (List.length (moon_tab st)) <= 96 * days_in_year year)%Z
  /\ (forall accuracy accuracy',
        main (mk_Args year lat lon searchalt searchaz true accuracy) elevation
        = main (mk_Args year lat lon searchalt searchaz true accuracy')
               elevation).
Proof.
  intros Hy instants st.
  assert (Hd : (365 <= days_in_year year)%Z)
    by (unfold days_in_year; destruct (is_leap year); lia).
  assert (Hst : time_ok (jan1 year) = true) by reflexivity.
  assert (Hen : time_ok (dec31 year) = true) by reflexivity.
  assert (Hgrid : instants
                  = grid (jan1 year) 15 (Z.to_nat (96 * days_in_year year))).
  { unfold instants. rewrite rrule_minutely_grid by (reflexivity || lia).
    rewrite year_ticks. reflexivity. }
  assert (Hlen : Z.of_nat (List.length instants)
                 = (96 * days_in_year year)%Z).
  { rewrite Hgrid, grid_length. lia. }
  split; [exact Hlen|].
  assert (HS : Z.to_nat (96 * days_in_year year)
               = S (Z.to_nat (96 * days_in_year year - 1))) by lia.
  split.
  { rewrite Hgrid, HS, grid_S by assumption. reflexivity. }
  split.
  { rewrite Hgrid, HS, grid_last.
    apply to_us_inj; [apply add_minutes_time_ok, Hst|reflexivity|].
    rewrite to_us_add_minutes, Z2Nat.id by lia.
    pose proof (minutes_of_year year) as Hm.
    assert (H45 : (to_us (mk_datetime (ymd2ord year 12 31) 23 45 0 0)
                   = to_us (dec31 year) - 14 * us_per_minute)%Z)
      by (unfold to_us, dec31, us_per_minute; simpl; lia).
    rewrite H45. unfold us_per_minute in *. lia. }
  split.
  { unfold moon_loop. rewrite moon_fold. cbn [moon_pos].
    rewrite spy_fold_calls, length_app, length_map. fold instants.
    change (List.length (calls (Moon (Ephem:=spy E)))) with 0%nat.
    exact Hlen. }
  split.
  { unfold st, moon_loop. rewrite moon_fold. cbn [moon_tab moon_pos app].
    rewrite length_map. fold instants.
    pose proof (filter_length_le (accepts 2 searchalt searchaz)
                  (samples Moon lon lat elevation instants)) as Hle.
    rewrite samples_count in Hle. lia. }
  intros accuracy accuracy'. reflexivity.
Qed.

(** X8: with the solstice hour inside the year and a step of 15 or of 2
    minutes, the two windows of the Sun search hold one instant more than
    the grid of the year, 1440 / step for each day and the solstice hour
    twice, and the ephemeris is called that many times. *)
Theorem sun_sample_count year accuracy :
  (MINYEAR <= year <= MAXYEAR)%Z -> accuracy = 15%Z \/ accuracy = 2%Z ->
  let date_solstice :=
    replace_minute_second_microsecond (next_solstice (jan1 year)) 0 0 0 in
  dt_leb (jan1 year) date_solstice = true ->
  dt_leb date_solstice (dec31 year) = true ->
  let total := (days_in_year year * (1440 / accuracy) + 1)%Z in
  (Z.of_nat (List.length (rrule_minutely accuracy (jan1 year) date_solstice))
   + Z.of_nat (List.length
                 (rrule_minutely accuracy date_solstice (dec31 year)))
   = total)%Z
  /\ (Z.of_nat (List.length
        (calls (sun_pos (sun_loop (E:=spy E) [] lon lat elevation searchalt
                                  searchaz (jan1 year) date_solstice
                                  accuracy))))
      + Z.of_nat (List.length
          (calls (sun_pos (sun_loop (E:=spy E) [] lon lat elevation searchalt
                                    searchaz date_solstice (dec31 year)
                                    accuracy))))
      = total)%Z.
Proof.
  intros Hy Hacc sol HleA HleB total.
  assert (Hpos : (0 < accuracy)%Z) by lia.
  pose proof (next_solstice_valid (jan1 year) (jan1_valid year Hy)) as Hv.
  assert (Hsol : time_ok sol = true).
  { apply valid_time_ok in Hv. rewrite time_ok_spec in *. simpl. lia. }
  assert (Hst : time_ok (jan1 year) = true) by reflexivity.
  assert (Hen : time_ok (dec31 year) = true) by reflexivity.
  rewrite dt_leb_to_us in HleA, HleB by assumption.
  apply Z.leb_le in HleA, HleB.
  assert (Hd : (365 <= days_in_year year)%Z)
    by (unfold days_in_year; destruct (is_leap year); lia).
  set (H := ((ordinal sol - ordinal (jan1 year)) * 24 + hour sol)%Z).
  assert (HdA : (to_us sol - to_us (jan1 year) = H * 60 * us_per_minute)%Z).
  { unfold H, to_us, us_per_minute, sol; simpl. lia. }
  pose proof (minutes_of_year year) as Hyear.
  assert (HdB : (to_us (dec31 year) - to_us sol
                 = (days_in_year year * 1440 - 1 - H * 60) * us_per_minute)%Z)
    by lia.
  assert (HH : (0 <= H)%Z) by (unfold us_per_minute in HdA; lia).
  assert (HB : (0 <= days_in_year year * 1440 - 1 - H * 60)%Z)
    by (unfold us_per_minute in HdB; lia).
  assert (Hcount :
            (Z.of_nat (ticks accuracy (jan1 year) sol)
             + Z.of_nat (ticks accuracy sol (dec31 year)) = total)%Z).
  { rewrite !ticks_count by assumption. rewrite HdA, HdB.
    rewrite !Z.div_mul_cancel_r by (unfold us_per_minute; lia).
    unfold total. clearbody H. clear HdA HdB Hyear.
    assert (Hq : (0 <= H * 60 / accuracy
                  /\ 0 <= (days_in_year year * 1440 - 1 - H * 60) / accuracy)%Z)
      by (split; apply Z.div_pos; lia).
    rewrite !Z2Nat.id by lia.
    destruct Hacc as [-> | ->];
      [change (1440 / 15)%Z with 96%Z | change (1440 / 2)%Z with 720%Z];
      Z.div_mod_to_equations; lia. }
  assert (HlenA : List.length (rrule_minutely accuracy (jan1 year) sol)
                  = ticks accuracy (jan1 year) sol).
  { rewrite rrule_minutely_grid by (assumption || reflexivity).
    apply grid_length. }
  assert (HlenB : List.length (rrule_minutely accuracy sol (dec31 year))
                  = ticks accuracy sol (dec31 year)).
  { rewrite rrule_minutely_grid by (assumption || reflexivity).
    apply grid_length. }
  split; [rewrite HlenA, HlenB; exact Hcount|].
  unfold sun_loop. rewrite !sun_fold. cbn [sun_pos].
  rewrite !spy_fold_calls, !length_app, !length_map.
  change (List.length (calls (Sun (Ephem:=spy E)))) with 0%nat.
  rewrite HlenA, HlenB. exact Hcount.
Qed.

(** X9: with a step of 15 or of 2 minutes every result of the Sun search
    has an instant on a whole minute that is a multiple of the step, and
    every accepted sample of the Moon search one on a quarter of an
    hour. *)
Theorem sampled_on_the_step year accuracy :
  (MINYEAR <= year <= MAXYEAR)%Z -> accuracy = 15%Z \/ accuracy = 2%Z ->
  let date_solstice :=
    replace_minute_second_microsecond (next_solstice (jan1 year)) 0 0 0 in
  (forall e,
     In e (calculate_sun [] lon lat elevation searchalt searchaz
                         (jan1 year) date_solstice accuracy
           ++ calculate_sun [] lon lat elevation searchalt searchaz
                            date_solstice (dec31 year) accuracy) ->
     (minute (timewindow_of e) mod accuracy = 0)%Z
     /\ second (timewindow_of e) = 0%Z
     /\ microsecond (timewindow_of e) = 0%Z)
  /\ (forall s,
        In s (accepted 2 Moon lon lat elevation searchalt searchaz
                       (jan1 year) (dec31 year) 15) ->
        In (minute (instant s)) [0; 15; 30; 45]%Z
        /\ second (instant s) = 0%Z /\ microsecond (instant s) = 0%Z).
Proof.
  intros Hy Hacc sol.
  assert (Hpos : (0 < accuracy)%Z) by lia.
  assert (Hdiv : (accuracy | 60)%Z).
  { destruct Hacc as [-> | ->]; [exists 4%Z|exists 30%Z]; reflexivity. }
  pose proof (next_solstice_valid (jan1 year) (jan1_valid year Hy)) as Hv.
  assert (Hsol : time_ok sol = true).
  { apply valid_time_ok in Hv. rewrite time_ok_spec in *. simpl. lia. }
  assert (Hst : time_ok (jan1 year) = true) by reflexivity.
  assert (Hen : time_ok (dec31 year) = true) by reflexivity.
  split.
  - intros e Hin. apply in_app_or in Hin.
    destruct Hin as [Hin|Hin].
    + destruct (result_sample lon lat elevation searchalt searchaz
                  (jan1 year) sol accuracy e Hpos Hst eq_refl Hsol Hin)
        as (s & -> & _ & Hg & _).
      exact (grid_minute accuracy (jan1 year) _ _ Hpos Hdiv eq_refl Hg).
    + destruct (result_sample lon lat elevation searchalt searchaz
                  sol (dec31 year) accuracy e Hpos Hsol eq_refl Hen Hin)
        as (s & -> & _ & Hg & _).
      exact (grid_minute accuracy sol _ _ Hpos Hdiv eq_refl Hg).
  - intros s Hin. unfold accepted in Hin. apply filter_In in Hin.
    destruct Hin as [Hin _]. apply (in_map instant) in Hin.
    rewrite samples_instants in Hin.
    rewrite rrule_minutely_grid in Hin by (reflexivity || assumption).
    pose proof (grid_time_ok _ _ _ _ Hst Hin) as Hok.
    rewrite time_ok_spec in Hok.
    destruct (grid_minute 15 (jan1 year) _ _ eq_refl
                (ex_intro _ 4%Z eq_refl) eq_refl Hin) as (Hm & Hs & Hu).
    split; [|split; assumption].
    assert (Hcases : (minute (instant s) = 0 \/ minute (instant s) = 15
                      \/ minute (instant s) = 30
                      \/ minute (instant s) = 45)%Z)
      by (Z.div_mod_to_equations; lia).
    clear - Hcases.
    destruct Hcases as [H | [H | [H | H]]]; rewrite H; simpl; auto.
Qed.

End Year.

(** *** The elevation lookup *)

Section Lookup.
Import Elevation.
Variable requests_get : string -> json.
Variables lon lat : string.

(** X11: [get_elevation] returns a value exactly when the answer of the
    service is an object whose "results" is a list that starts with an
    object holding "elevation"; the value is that field of the first
    result, whatever follows it.  The service is asked for the latitude
    before the longitude. *)
Theorem get_elevation_returns v :
  get_elevation requests_get lon lat = inl v
  <-> exists fields first rest,
        requests_get
          ("https://api.open-elevation.com/api/v1/lookup?locations="
           ++ lat ++ "," ++ lon)
        = JObject fields
        /\ lookup "results" fields = Some (JArray (JObject first :: rest))
        /\ lookup "elevation" first = Some v.
Proof.
  unfold get_elevation, url, getitem, getitem0. split.
  - intros H.
    destruct (requests_get _) as [| | | | | |fields]; try discriminate.
    destruct (lookup "results" fields) as [results|] eqn:Hres;
      [|discriminate].
    destruct results as [| | | |[|c s]|[|first rest]|o]; try discriminate.
    destruct first as [| | | | | |ffields]; try discriminate.
    destruct (lookup "elevation" ffields) as [x|] eqn:Hel; [|discriminate].
    injection H as <-. exists fields, ffields, rest. auto.
  - intros (fields & first & rest & -> & -> & ->). reflexivity.
Qed.

(** X12: [get_elevation] raises [IndexError] exactly when "results" is an
    empty list or an empty string, and [KeyError] exactly when the answer
    is an object that has no "results", or whose "results" is an object,
    or whose first result is an object without "elevation"; an answer
    that is not an object raises [TypeError]. *)
Theorem get_elevation_raises :
  let answer := requests_get (url lon lat) in
  (get_elevation requests_get lon lat = inr IndexError
   <-> exists fields,
         answer = JObject fields
         /\ (lookup "results" fields = Some (JArray [])
             \/ lookup "results" fields = Some (JString EmptyString)))
  /\ (get_elevation requests_get lon lat = inr KeyError
      <-> exists fields,
            answer = JObject fields
            /\ (lookup "results" fields = None
                \/ (exists o, lookup "results" fields = Some (JObject o))
                \/ (exists first rest,
                      lookup "results" fields
                      = Some (JArray (JObject first :: rest))
                      /\ lookup "elevation" first = None)))
  /\ ((forall fields, answer <> JObject fields) ->
      get_elevation requests_get lon lat = inr TypeError).
Proof.
  intros answer. unfold get_elevation, getitem, getitem0. fold answer.
  split; [|split].
  - split.
    + intros H.
      destruct answer as [| | | | | |fields]; try discriminate.
      exists fields. split; [reflexivity|].
      destruct (lookup "results" fields) as [results|]; [|discriminate].
      destruct results as [| | | |[|c s]|[|first rest]|o];
        try discriminate; auto.
      destruct first as [| | | | | |ffields]; try discriminate.
      destruct (lookup "elevation" ffields); discriminate.
    + intros (fields & -> & [-> | ->]); reflexivity.
  - split.
    + intros H.
      destruct answer as [| | | | | |fields]; try discriminate.
      exists fields. split; [reflexivity|].
      destruct (lookup "results" fields) as [results|]; [|auto].
      destruct results as [| | | |[|c s]|[|first rest]|o];
        try discriminate; eauto.
      destruct first as [| | | | | |ffields]; try discriminate.
      destruct (lookup "elevation" ffields) eqn:Hel; [discriminate|].
      right. right. eauto.
    + intros (fields & -> & [-> | [(o & ->) | (first & rest & -> & ->)]]);
        reflexivity.
  - intros Hno.
    destruct answer as [| | | | | |fields]; try reflexivity.
    destruct (Hno fields eq_refl).
Qed.

End Lookup.

(** *** The year 2024 on the test doubles *)

Lemma in_2024 : (MINYEAR <= 2024 <= MAXYEAR)%Z.
Proof. unfold MINYEAR, MAXYEAR. lia. Qed.

Lemma calculate_sun_ordered_witness :
  (0 < 15)%Z /\ valid (jan1 2024) = true /\ microsecond (jan1 2024) = 0%Z
  /\ valid Double.solstice_hour = true
  /\ StronglySorted
       (fun a b =>
          (closeby a <? closeby b) = true
          \/ ((closeby a =? closeby b) = true
              /\ dt_ltb (timewindow_of a) (timewindow_of b) = true))
       (calculate_sun (E:=Double.ephem) (C:=Double.console)
          [] "5" "52" 0 10 102.5 (jan1 2024) Double.solstice_hour 15).
Proof.
  assert (H0 : (0 < 15)%Z) by lia.
  assert (H1 : valid (jan1 2024) = true) by reflexivity.
  assert (H2 : microsecond (jan1 2024) = 0%Z) by reflexivity.
  assert (H3 : valid Double.solstice_hour = true) by reflexivity.
  split; [exact H0|]. split; [exact H1|]. split; [exact H2|].
  split; [exact H3|].
  exact (calculate_sun_ordered (E:=Double.ephem) (C:=Double.console)
           "5" "52" 0 10 102.5 (jan1 2024) Double.solstice_hour 15
           H0 H1 H2 H3).
Defined.


Lemma sun_rows_in_windows_witness :
  (0 < 43200)%Z
  /\ get_sun_position (E:=Double.still) (C:=Double.console)
       2024 "5" "52" 0 0 1 43200 = Ok Double.report
  /\ exists sA sB : sample (E:=Double.still),
       dt_leb (jan1 2024) (instant sA) = true
       /\ dt_leb (instant sA) Double.solstice_hour = true
       /\ dt_leb Double.solstice_hour (instant sB) = true
       /\ dt_leb (instant sB) (dec31 2024) = true
       /\ dt_leb (instant sA) (instant sB) = true.
Proof.
  assert (H0 : (0 < 43200)%Z) by lia.
  assert (Hrun : get_sun_position (E:=Double.still) (C:=Double.console)
                   2024 "5" "52" 0 0 1 43200 = Ok Double.report)
    by (vm_compute; reflexivity).
  split; [exact H0|]. split; [exact Hrun|].
  destruct (sun_rows_in_windows (E:=Double.still) (C:=Double.console)
              "5" "52" 0 0 1 2024 43200 Double.report H0 Hrun)
    as (sA & sB & _ & _ & _ & H1 & H2 & H3 & H4 & H5).
  exists sA, sB. repeat split; assumption.
Defined.

Lemma moon_sample_count_witness :
  (MINYEAR <= 2024 <= MAXYEAR)%Z
  /\ Z.of_nat (List.length (rrule_minutely 15 (jan1 2024) (dec31 2024)))
     = 35136%Z
  /\ last (rrule_minutely 15 (jan1 2024) (dec31 2024)) (jan1 2024)
     = mk_datetime 739251 23 45 0 0.
Proof.
  split; [exact in_2024|].
  destruct (moon_sample_count (E:=Double.ephem) (C:=Double.console)
              "5" "52" 0 10 102 2024 in_2024) as (Hlen & _ & Hlast & _).
  split; [exact Hlen|exact Hlast].
Defined.

Lemma sun_sample_count_witness :
  (MINYEAR <= 2024 <= MAXYEAR)%Z
  /\ dt_leb (jan1 2024) Double.solstice_hour = true
  /\ dt_leb Double.solstice_hour (dec31 2024) = true
  /\ (Z.of_nat (List.length
                  (rrule_minutely 15 (jan1 2024) Double.solstice_hour))
      + Z.of_nat (List.length
                    (rrule_minutely 15 Double.solstice_hour (dec31 2024)))
      = 35137)%Z.
Proof.
  assert (HA : dt_leb (jan1 2024) Double.solstice_hour = true) by reflexivity.
  assert (HB : dt_leb Double.solstice_hour (dec31 2024) = true) by reflexivity.
  split; [exact in_2024|]. split; [exact HA|]. split; [exact HB|].
  exact (proj1 (sun_sample_count (E:=Double.ephem) (C:=Double.console)
                  "5" "52" 0 10 102.5 2024 15 in_2024 (or_introl eq_refl)
                  HA HB)).
Defined.

Lemma sampled_on_the_step_witness :
  (MINYEAR <= 2024 <= MAXYEAR)%Z
  /\ forall s,
       In s (accepted (E:=Double.ephem) 2 Moon "5" "52" 0 10 102
                      (jan1 2024) (dec31 2024) 15) ->
       In (minute (instant s)) [0; 15; 30; 45]%Z
       /\ second (instant s) = 0%Z /\ microsecond (instant s) = 0%Z.
Proof.
  split; [exact in_2024|].
  exact (proj2 (sampled_on_the_step (E:=Double.ephem) (C:=Double.console)
                  "5" "52" 0 10 102 2024 15 in_2024 (or_introl eq_refl))).
Defined.


End Extras.
